(** * ptsim: a page-table simulator over 16 KiB of simulated RAM

    Shallow embedding of [ptsim.c].  The C program keeps one global
    array [unsigned char mem[MEM_SIZE]] and prints trace lines; every
    function below is the C function of the same name, written in a
    state monad whose state is that array together with the lines
    printed so far.  An access outside the array is undefined in C and
    is modelled as the outcome [OutOfBounds]. *)

From Stdlib Require Import ZArith Lia.
From Stdlib Require Import Ascii.
From Stdlib Require String DecimalString.
From stdpp Require Import base list.

Local Open Scope Z_scope.

(** ** Constants ([#define]s of the source) *)

Definition MEM_SIZE : Z := 16384.
Definition PAGE_SIZE : Z := 256.
Definition PAGE_COUNT : Z := 64.
Definition PAGE_SHIFT : Z := 8.
Definition PTP_OFFSET : Z := 64.

(** Capacity of the page-table pointer table: the bytes of page 0 that
    follow the free map. *)
Definition MAX_PROC : Z := PAGE_SIZE - PTP_OFFSET.

(** ** The world: simulated RAM and the printed trace *)

(** One constructor per [printf] format of the core functions, carrying
    the values that are substituted into the format. *)
Inductive event : Type :=
  | OOM_page_table (proc_num : Z)
  | OOM_data_page (proc_num : Z)
  | Store_line (proc_num v_addr p_addr value : Z)
  | Load_line (proc_num virt_addr physical_addr value : Z).

Record world : Type := World { mem : list Z; out : list event }.

Inductive outcome (A : Type) : Type :=
  | Ok (a : A)
  | OutOfBounds
  | OutOfFuel.
Arguments Ok {A} a.
Arguments OutOfBounds {A}.
Arguments OutOfFuel {A}.

Definition M (A : Type) : Type := world -> outcome (A * world).

Definition ret {A} (a : A) : M A := fun s => Ok (a, s).

Definition bind {A B} (c : M A) (k : A -> M B) : M B :=
  fun s => match c s with
           | Ok (a, s') => k a s'
           | OutOfBounds => OutOfBounds
           | OutOfFuel => OutOfFuel
           end.

Notation "x <- c ;; k" := (bind c (fun x => k))
  (at level 100, c at next level, k at level 200, right associativity).
Notation "c ;;; k" := (bind c (fun _ => k))
  (at level 100, k at level 200, right associativity).

(** Reading and writing a cell of a byte array at an [int] index. *)
Definition rd (m : list Z) (a : Z) : option Z :=
  if decide (0 <= a) then m !! Z.to_nat a else None.

Definition wr (m : list Z) (a : Z) (v : Z) : list Z :=
  <[Z.to_nat a := v]> m.

(** [mem[a]] as an rvalue. *)
Definition load_byte (a : Z) : M Z :=
  fun s => match rd (mem s) a with
           | Some b => Ok (b, s)
           | None => OutOfBounds
           end.

(** [mem[a] = v;] the [int] is converted to [unsigned char]. *)
Definition store_byte (a v : Z) : M unit :=
  fun s => match rd (mem s) a with
           | Some _ => Ok (tt, World (wr (mem s) a (v mod 256)) (out s))
           | None => OutOfBounds
           end.

Definition print (e : event) : M unit :=
  fun s => Ok (tt, World (mem s) (out s ++ [e])).

Definition out_of_fuel {A} : M A := fun _ => OutOfFuel.

(** ** The functions of [ptsim.c] *)

Definition get_address (page offset : Z) : Z :=
  Z.lor (Z.shiftl page PAGE_SHIFT) offset.

(** [memset(mem, 0, MEM_SIZE)] followed by marking the zero page. *)
Definition initialize_mem : M unit :=
  (fun s => Ok (tt, World (replicate (Z.to_nat MEM_SIZE) 0) (out s))) ;;;
  let zpfree_addr := get_address 0 0 in
  store_byte zpfree_addr 1.

Definition get_page_table (proc_num : Z) : M Z :=
  let ptp_addr := get_address 0 (PTP_OFFSET + proc_num) in
  load_byte ptp_addr.

(** The [do ... while] of [allocate_page]: one unfolding is one run of
    the body followed by the test.  [map_entry] and [free_page] are the
    values of the two locals on entry to the body. *)
Fixpoint allocate_scan (fuel : nat) (map_entry free_page : Z) : M Z :=
  match fuel with
  | O => out_of_fuel
  | S fuel' =>
      let map_entry := map_entry + 1 in
      b <- load_byte map_entry ;;
      let free_page := if b =? 0 then map_entry else free_page in
      if (map_entry <? PAGE_COUNT) && (free_page <? 0)
      then allocate_scan fuel' map_entry free_page
      else ret free_page
  end.

Definition allocate_page : M Z :=
  free_page <- allocate_scan (Z.to_nat PAGE_COUNT) 0 (-1) ;;
  if free_page =? -1 then ret 255
  else store_byte free_page 1 ;;; ret free_page.

Definition deallocate_page (page_number : Z) : M unit :=
  store_byte page_number 0.

(** The [for] loop of [new_process]; [k] iterations remain and [i] is
    the loop counter.  The early [return] ends the whole function. *)
Fixpoint new_process_loop (k : nat) (proc_num page_table_page i : Z) : M unit :=
  match k with
  | O => ret tt
  | S k' =>
      new_page <- allocate_page ;;
      if new_page =? 255 then print (OOM_data_page proc_num)
      else
        store_byte (get_address page_table_page i) new_page ;;;
        new_process_loop k' proc_num page_table_page (i + 1)
  end.

Definition new_process (proc_num page_count : Z) : M unit :=
  page_table_page <- allocate_page ;;
  if page_table_page =? 255 then print (OOM_page_table proc_num)
  else
    store_byte (PTP_OFFSET + proc_num) page_table_page ;;;
    new_process_loop (Z.to_nat page_count) proc_num page_table_page 0.

(** The [for (i = 0; i < 256; i++)] loop of [kill_process]. *)
Fixpoint kill_process_loop (k : nat) (page_table_page i : Z) : M unit :=
  match k with
  | O => ret tt
  | S k' =>
      let page_i := get_address page_table_page i in
      b <- load_byte page_i ;;
      (if negb (b =? 0) then deallocate_page b else ret tt) ;;;
      kill_process_loop k' page_table_page (i + 1)
  end.

Definition kill_process (proc_num : Z) : M unit :=
  page_table_page <- load_byte (proc_num + PTP_OFFSET) ;;
  store_byte (proc_num + PTP_OFFSET) 0 ;;;
  kill_process_loop 256 page_table_page 0 ;;;
  deallocate_page page_table_page.

Definition get_physical_addr (proc_num v_addr : Z) : M Z :=
  page_table_page <- load_byte (proc_num + PTP_OFFSET) ;;
  let virt_page := Z.shiftr v_addr PAGE_SHIFT in
  physical_page <- load_byte (get_address page_table_page virt_page) ;;
  let offset := Z.land v_addr 255 in
  ret (get_address physical_page offset).

Definition store_value (proc_num v_addr value : Z) : M unit :=
  p_addr <- get_physical_addr proc_num v_addr ;;
  store_byte p_addr value ;;;
  print (Store_line proc_num v_addr p_addr value).

Definition load_value (proc_num virt_addr : Z) : M unit :=
  physical_addr <- get_physical_addr proc_num virt_addr ;;
  value <- load_byte physical_addr ;;
  print (Load_line proc_num virt_addr physical_addr value).

(** The commands [main] dispatches to the core, with their arguments
    already parsed.  [pfm] and [ppt] only print the free map and a page
    table and are left out. *)
Inductive command : Type :=
  | Np (proc_num page_count : Z)
  | Kp (proc_num : Z)
  | Sb (proc_num v_addr value : Z)
  | Lb (proc_num v_addr : Z).

Definition run_command (c : command) : M unit :=
  match c with
  | Np proc_num page_count => new_process proc_num page_count
  | Kp proc_num => kill_process proc_num
  | Sb proc_num v_addr value => store_value proc_num v_addr value
  | Lb proc_num v_addr => load_value proc_num v_addr
  end.

Fixpoint run_commands (cs : list command) : M unit :=
  match cs with
  | [] => ret tt
  | c :: cs' => run_command c ;;; run_commands cs'
  end.

(** The program starts with [mem] zero-filled and nothing printed;
    [main] calls [initialize_mem] before the first command. *)
Definition boot : world := World (replicate (Z.to_nat MEM_SIZE) 0) [].

Definition main (cs : list command) : outcome (unit * world) :=
  (initialize_mem ;;; run_commands cs) boot.

(** The world after [initialize_mem]: all zero but the free-map byte of
    page 0. *)
Definition fresh : world := World (wr (replicate (Z.to_nat MEM_SIZE) 0) 0 1) [].

(** The free map: the first [PAGE_COUNT] bytes of page 0. *)
Definition free_map (s : world) : list Z := take (Z.to_nat PAGE_COUNT) (mem s).

(** The value [allocate_page] returns when it found no page. *)
Definition Exhausted : Z := 255.

(** A well-formed world: the array has its declared length and every
    cell holds an [unsigned char]. *)
Definition wf (s : world) : Prop :=
  Z.of_nat (length (mem s)) = MEM_SIZE /\ Forall (fun b => 0 <= b < 256) (mem s).

(** Every free-map byte for pages [1..L] is in use. *)
Definition filled (m : list Z) (L : Z) : Prop :=
  forall j, 1 <= j <= L -> rd m j <> Some 0.

(** Directory and page-table entries as the code addresses them. *)
Definition dir_entry (s : world) (proc_num : Z) : option Z :=
  rd (mem s) (PTP_OFFSET + proc_num).

Definition pte (s : world) (page_table_page i : Z) : option Z :=
  rd (mem s) (get_address page_table_page i).

(** The world [main] ends in after the commands [cs]. *)
Definition world_after (cs : list command) : world :=
  match main cs with
  | Ok (_, s) => s
  | _ => boot
  end.

(** Commands that cannot write to address 0: process ids within the
    pointer table, [kp] only on a process that has a page table, [sb]
    only where the translated address is not 0. *)
Definition keeps_page0 (c : command) (s : world) : bool :=
  match c with
  | Np proc_num _ => (0 <=? proc_num) && (proc_num <? MAX_PROC)
  | Kp proc_num =>
      (0 <=? proc_num) && (proc_num <? MAX_PROC) &&
      match dir_entry s proc_num with
      | Some b => negb (b =? 0)
      | None => false
      end
  | Sb proc_num v_addr _ =>
      match get_physical_addr proc_num v_addr s with
      | Ok (a, _) => negb (a =? 0)
      | _ => true
      end
  | Lb _ _ => true
  end.

Fixpoint guarded (cs : list command) (s : world) : bool :=
  match cs with
  | [] => true
  | c :: cs' =>
      keeps_page0 c s &&
      match run_command c s with
      | Ok (_, s') => guarded cs' s'
      | _ => true
      end
  end.

(** The entries of the page table in page [page_table_page] from index
    [n] on are all 0. *)
Definition clean_from (s : world) (page_table_page n : Z) : bool :=
  forallb (fun i => match pte s page_table_page i with
                    | Some b => b =? 0
                    | None => false
                    end)
          (seqZ (Z.max 0 n) (PAGE_SIZE - Z.max 0 n)).

(** ** The two printing routines

    [print_page_free_map] and [print_page_table] only read memory and
    write text to the standard output.  Each is modelled as returning
    the characters it writes. *)

Definition newline : ascii := "010"%char.

(** [%d]. *)
Definition decimal (z : Z) : list ascii :=
  String.list_ascii_of_string (DecimalString.NilZero.string_of_int (Z.to_int z)).

Definition hex_digit (d : Z) : ascii :=
  nth (Z.to_nat d)
      ["0"; "1"; "2"; "3"; "4"; "5"; "6"; "7";
       "8"; "9"; "a"; "b"; "c"; "d"; "e"; "f"]%char
      "0"%char.

(** [%02x] for a value below 256, the only values it is given here: a
    loop counter below [PAGE_COUNT] and an [unsigned char]. *)
Definition hex2 (v : Z) : list ascii := [hex_digit (v / 16); hex_digit (v mod 16)].

(** ["--- PAGE FREE MAP ---\n"] *)
Definition free_map_header : list ascii :=
  ["-"; "-"; "-"; " "; "P"; "A"; "G"; "E"; " "; "F"; "R"; "E"; "E"; " ";
   "M"; "A"; "P"; " "; "-"; "-"; "-"]%char ++ [newline].

Fixpoint print_page_free_map_loop (k : nat) (i : Z) : M (list ascii) :=
  match k with
  | O => ret []
  | S k' =>
      let addr := get_address 0 i in
      b <- load_byte addr ;;
      let c := if b =? 0 then "."%char else "#"%char in
      let nl := if Z.rem (i + 1) 16 =? 0 then [newline] else [] in
      rest <- print_page_free_map_loop k' (i + 1) ;;
      ret (c :: nl ++ rest)
  end.

Definition print_page_free_map : M (list ascii) :=
  rest <- print_page_free_map_loop 64 0 ;;
  ret (free_map_header ++ rest).

(** ["--- PROCESS %d PAGE TABLE ---\n"] *)
Definition page_table_header (proc_num : Z) : list ascii :=
  ["-"; "-"; "-"; " "; "P"; "R"; "O"; "C"; "E"; "S"; "S"; " "]%char ++
  decimal proc_num ++
  [" "; "P"; "A"; "G"; "E"; " "; "T"; "A"; "B"; "L"; "E"; " "; "-"; "-"; "-"]%char ++
  [newline].

(** ["%02x -> %02x\n"] *)
Definition page_table_line (i page : Z) : list ascii :=
  hex2 i ++ [" "; "-"; ">"; " "]%char ++ hex2 page ++ [newline].

Fixpoint print_page_table_loop (k : nat) (page_table i : Z) : M (list ascii) :=
  match k with
  | O => ret []
  | S k' =>
      let addr := get_address page_table i in
      page <- load_byte addr ;;
      let line := if negb (page =? 0) then page_table_line i page else [] in
      rest <- print_page_table_loop k' page_table (i + 1) ;;
      ret (line ++ rest)
  end.

Definition print_page_table (proc_num : Z) : M (list ascii) :=
  page_table <- get_page_table proc_num ;;
  rest <- print_page_table_loop (Z.to_nat PAGE_COUNT) page_table 0 ;;
  ret (page_table_header proc_num ++ rest).

(** The character the free-map dump shows for page [i]. *)
Definition glyph (s : world) (i : Z) : ascii :=
  match rd (mem s) i with
  | Some 0 => "."%char
  | _ => "#"%char
  end.

(** A page-table entry that is not 0. *)
Definition mapped (s : world) (page_table_page i : Z) : Prop :=
  pte s page_table_page i <> Some 0.

(** The page a page-table entry names, 0 when it cannot be read. *)
Definition entry (s : world) (page_table_page i : Z) : Z :=
  default 0 (pte s page_table_page i).

(** * Memory cells *)

Section cells.
Implicit Types (m : list Z) (a b v : Z).

Lemma rd_Some_bounds m a b : rd m a = Some b -> 0 <= a < Z.of_nat (length m).
Proof.
  unfold rd. destruct (decide (0 <= a)) as [Ha|]; [|discriminate].
  intros Hb%lookup_lt_Some. lia.
Qed.

Lemma rd_in_bounds m a : 0 <= a < Z.of_nat (length m) -> exists b, rd m a = Some b.
Proof.
  intros [H0 H1]. unfold rd. rewrite decide_True by done.
  destruct (lookup_lt_is_Some_2 m (Z.to_nat a)) as [b Hb]; [lia|]. eauto.
Qed.

Lemma rd_wr_eq m a v : 0 <= a < Z.of_nat (length m) -> rd (wr m a v) a = Some v.
Proof.
  intros [H0 H1]. unfold rd, wr. rewrite decide_True by done.
  apply list_lookup_insert_eq. lia.
Qed.

Lemma rd_wr_ne m a a' v : 0 <= a -> a <> a' -> rd (wr m a v) a' = rd m a'.
Proof.
  intros H0 Hne. unfold rd, wr. destruct (decide (0 <= a')); [|done].
  apply list_lookup_insert_ne. lia.
Qed.

Lemma length_wr m a v : length (wr m a v) = length m.
Proof. apply length_insert. Qed.

End cells.

Lemma get_address_add page offset :
  0 <= offset < 256 -> get_address page offset = page * 256 + offset.
Proof.
  intros Ho. unfold get_address, PAGE_SHIFT.
  rewrite Z.shiftl_mul_pow2 by lia. change (2 ^ 8) with 256.
  rewrite <- Z.lxor_lor, <- Z.add_nocarry_lxor; try done.
  all: apply Z.bits_inj'; intros n Hn; rewrite Z.land_spec, Z.bits_0.
  all: destruct (decide (n < 8)).
  all: try (change 256 with (2 ^ 8); rewrite Z.mul_pow2_bits_low by lia; done).
  all: rewrite <- (Z.mod_small offset (2 ^ 8)) by (change (2 ^ 8) with 256; lia).
  all: rewrite Z.mod_pow2_bits_high by lia; apply andb_false_r.
Qed.

Lemma get_address_0 offset : get_address 0 offset = offset.
Proof. unfold get_address. rewrite Z.shiftl_0_l. apply Z.lor_0_l. Qed.

(** * The monad *)

Lemma bind_Ok {A B} (c : M A) (k : A -> M B) s a s1 :
  c s = Ok (a, s1) -> bind c k s = k a s1.
Proof. intros H. unfold bind. by rewrite H. Qed.

Lemma bind_inv {A B} (c : M A) (k : A -> M B) s r s' :
  bind c k s = Ok (r, s') -> exists a s1, c s = Ok (a, s1) /\ k a s1 = Ok (r, s').
Proof.
  unfold bind. destruct (c s) as [[a s1]| |]; try discriminate. eauto.
Qed.

Lemma load_byte_Ok a b s : rd (mem s) a = Some b -> load_byte a s = Ok (b, s).
Proof. intros H. unfold load_byte. by rewrite H. Qed.

Lemma load_byte_inv a b s s' :
  load_byte a s = Ok (b, s') -> s' = s /\ rd (mem s) a = Some b.
Proof.
  unfold load_byte. destruct (rd (mem s) a); [|discriminate].
  by intros [= -> ->].
Qed.

Lemma store_byte_Ok a v b s :
  rd (mem s) a = Some b ->
  store_byte a v s = Ok (tt, World (wr (mem s) a (v mod 256)) (out s)).
Proof. intros H. unfold store_byte. by rewrite H. Qed.

Lemma store_byte_inv a v u s s' :
  store_byte a v s = Ok (u, s') ->
  s' = World (wr (mem s) a (v mod 256)) (out s) /\ is_Some (rd (mem s) a).
Proof.
  unfold store_byte. destruct (rd (mem s) a) eqn:E; [|discriminate].
  intros [= _ <-]. eauto.
Qed.

(** * Well-formed worlds *)

Lemma wf_length s : wf s -> Z.of_nat (length (mem s)) = MEM_SIZE.
Proof. by intros [H _]. Qed.

Lemma wf_rd s a : wf s -> 0 <= a < MEM_SIZE -> exists b, rd (mem s) a = Some b.
Proof. intros Hwf Ha. apply rd_in_bounds. by rewrite wf_length. Qed.

Lemma wf_byte s a b : wf s -> rd (mem s) a = Some b -> 0 <= b < 256.
Proof.
  intros [_ Hall]. unfold rd. destruct (decide (0 <= a)); [|discriminate].
  intros Hb. by apply (Forall_lookup_1 _ _ _ _ Hall Hb).
Qed.

Lemma wf_bounds s a b : wf s -> rd (mem s) a = Some b -> 0 <= a < MEM_SIZE.
Proof. intros Hwf Hb. rewrite <- (wf_length s Hwf). by eapply rd_Some_bounds. Qed.

Lemma wf_wr s a v o : wf s -> wf (World (wr (mem s) a (v mod 256)) o).
Proof.
  intros [Hlen Hall]. split; cbn [mem].
  - by rewrite length_wr.
  - apply Forall_insert; [done|]. apply Z.mod_pos_bound. lia.
Qed.

Lemma wf_rd_wr s a v : wf s -> 0 <= a < MEM_SIZE -> rd (wr (mem s) a v) a = Some v.
Proof. intros Hwf Ha. apply rd_wr_eq. by rewrite wf_length. Qed.

Lemma wf_out s o : wf s -> wf (World (mem s) o).
Proof. intros [Hlen Hall]. by split. Qed.

Lemma wf_fresh : wf fresh.
Proof.
  split; unfold fresh; cbn [mem].
  - rewrite length_wr, length_replicate. apply Z2Nat.id. by unfold MEM_SIZE.
  - apply Forall_insert; [|lia]. apply Forall_replicate. lia.
Qed.

(** * The allocator *)

Lemma allocate_scan_spec s :
  wf s ->
  forall fuel k,
    0 <= k -> k + Z.of_nat fuel = PAGE_COUNT -> (0 < fuel)%nat ->
    (exists r, allocate_scan fuel k (-1) s = Ok (r, s) /\ k < r <= PAGE_COUNT /\
               rd (mem s) r = Some 0 /\
               forall j, k < j < r -> rd (mem s) j <> Some 0)
    \/ (allocate_scan fuel k (-1) s = Ok (-1, s) /\
        forall j, k < j <= PAGE_COUNT -> rd (mem s) j <> Some 0).
Proof.
  intros Hwf. unfold PAGE_COUNT.
  induction fuel as [|fuel IH]; intros k Hk Hsum Hpos; [lia|].
  destruct (wf_rd s (k + 1) Hwf) as [b Hb]; [unfold MEM_SIZE; lia|].
  cbn [allocate_scan]. rewrite (bind_Ok _ _ _ _ _ (load_byte_Ok _ _ _ Hb)).
  destruct (Z.eqb_spec b 0) as [->|Hnz].
  - left. exists (k + 1).
    replace (k + 1 <? 0) with false by (symmetry; apply Z.ltb_ge; lia).
    rewrite andb_false_r. repeat split; try done; try lia.
  - change (-1 <? 0) with true. rewrite andb_true_r.
    unfold PAGE_COUNT. destruct (Z.ltb_spec (k + 1) 64) as [Hlt|Hge].
    + destruct (IH (k + 1)) as [(r & Hr & Hrange & Hfree & Hlow)|[Hr Hnone]];
        [lia|lia|lia| |].
      * left. exists r. repeat split; try done; try lia.
        intros j Hj. destruct (decide (j = k + 1)) as [->|]; [congruence|].
        apply Hlow. lia.
      * right. split; [done|]. intros j Hj.
        destruct (decide (j = k + 1)) as [->|]; [congruence|]. apply Hnone. lia.
    + right. split; [done|]. intros j Hj.
      replace j with (k + 1) by lia. congruence.
Qed.

(** What [allocate_page] does in every well-formed world: it takes the
    lowest index in [1..PAGE_COUNT] whose byte is 0, or answers 0xff. *)
Lemma allocate_page_spec s :
  wf s ->
  (exists r, allocate_page s = Ok (r, World (wr (mem s) r 1) (out s)) /\
             1 <= r <= PAGE_COUNT /\ rd (mem s) r = Some 0 /\ filled (mem s) (r - 1))
  \/ (allocate_page s = Ok (255, s) /\ filled (mem s) PAGE_COUNT).
Proof.
  intros Hwf. unfold allocate_page.
  destruct (allocate_scan_spec s Hwf (Z.to_nat PAGE_COUNT) 0)
    as [(r & Hr & Hrange & Hfree & Hlow)|[Hr Hnone]];
    [lia|unfold PAGE_COUNT; lia|unfold PAGE_COUNT; lia| |].
  - left. exists r. rewrite (bind_Ok _ _ _ _ _ Hr).
    destruct (Z.eqb_spec r (-1)) as [->|_]; [lia|].
    rewrite (bind_Ok _ _ _ _ _ (store_byte_Ok _ 1 _ _ Hfree)).
    repeat split; try done; try lia. intros j Hj. apply Hlow. lia.
  - right. rewrite (bind_Ok _ _ _ _ _ Hr). split; [done|].
    intros j Hj. apply Hnone. lia.
Qed.

(** The scan never runs out of fuel and never leaves the array. *)
Lemma allocate_page_total s : wf s -> exists r s', allocate_page s = Ok (r, s').
Proof.
  intros Hwf. destruct (allocate_page_spec s Hwf) as [(r & Hr & _)|[Hr _]]; eauto.
Qed.

(** * Killing a process *)

(** The loop of [kill_process] over a page table that lies in one of the
    pages [1..PAGE_COUNT-1]: it ends, writes only zeros, only into page
    0, and only at the nonzero values it finds in the table. *)
Lemma kill_process_loop_spec pt :
  1 <= pt < PAGE_COUNT ->
  forall k i s,
    wf s -> 0 <= i -> i + Z.of_nat k = 256 ->
    exists t,
      kill_process_loop k pt i s = Ok (tt, t) /\ wf t /\ out t = out s /\
      (forall a, 256 <= a -> rd (mem t) a = rd (mem s) a) /\
      (forall j e, i <= j < 256 -> rd (mem s) (get_address pt j) = Some e ->
                   e <> 0 -> rd (mem t) e = Some 0) /\
      (forall a, rd (mem t) a = rd (mem s) a \/
                 (rd (mem t) a = Some 0 /\ a <> 0 /\
                  exists j, i <= j < 256 /\ rd (mem s) (get_address pt j) = Some a)).
Proof.
  unfold PAGE_COUNT. intros Hpt.
  induction k as [|k IH]; intros i s Hwf Hi Hsum.
  { exists s. cbn [kill_process_loop]. split_and!; try done.
    - intros j e Hj. lia.
    - intros a. by left. }
  assert (Hga : get_address pt i = pt * 256 + i) by (apply get_address_add; lia).
  destruct (wf_rd s (get_address pt i) Hwf) as [b Hb];
    [unfold MEM_SIZE; lia|].
  pose proof (wf_byte _ _ _ Hwf Hb) as Hbyte.
  cbn [kill_process_loop]. rewrite (bind_Ok _ _ _ _ _ (load_byte_Ok _ _ _ Hb)).
  destruct (Z.eqb_spec b 0) as [->|Hnz]; cbn [negb].
  - unfold ret at 1. unfold bind at 1.
    destruct (IH (i + 1) s Hwf) as (t & Ht & Hwft & Hout & Hhigh & Hent & Hall);
      [lia|lia|].
    exists t. split_and!; try done.
    + intros j e Hj He Hne. destruct (decide (j = i)) as [->|]; [congruence|].
      apply (Hent j); [lia|done|done].
    + intros a. destruct (Hall a) as [?|(? & ? & j & Hj & ?)]; [by left|].
      right. split_and!; try done. exists j. split; [lia|done].
  - destruct (wf_rd s b Hwf) as [old Hold]; [unfold MEM_SIZE; lia|].
    unfold deallocate_page.
    rewrite (bind_Ok _ _ _ _ _ (store_byte_Ok _ 0 _ _ Hold)).
    change (0 mod 256) with 0.
    set (s' := World (wr (mem s) b 0) (out s)).
    assert (Hwf' : wf s') by apply (wf_wr s b 0 (out s) Hwf).
    assert (Hs' : forall a, a <> b -> rd (mem s') a = rd (mem s) a).
    { intros a Ha. apply rd_wr_ne; [lia|done]. }
    assert (Hs'b : rd (mem s') b = Some 0).
    { apply wf_rd_wr; [done|unfold MEM_SIZE; lia]. }
    destruct (IH (i + 1) s' Hwf') as (t & Ht & Hwft & Hout & Hhigh & Hent & Hall);
      [lia|lia|].
    exists t. split_and!; try done.
    + intros a Ha. rewrite Hhigh by done. apply Hs'. lia.
    + intros j e Hj He Hne. destruct (decide (j = i)) as [->|].
      * assert (e = b) as -> by congruence.
        destruct (Hall b) as [Heq|[? _]]; [congruence|done].
      * apply (Hent j); [lia| |done]. rewrite Hs'; [done|].
        rewrite get_address_add by lia. lia.
    + intros a. destruct (decide (a = b)) as [->|Hab].
      * right. destruct (Hall b) as [Heq|[? _]]; (split; [congruence|]).
        all: split; [done|]; exists i; split; [lia|done].
      * destruct (Hall a) as [Heq|(? & ? & j & Hj & Hja)].
        -- left. rewrite Heq. by apply Hs'.
        -- right. split_and!; try done. exists j. split; [lia|].
           rewrite <- Hja. symmetry. apply Hs'.
           rewrite get_address_add by lia. lia.
Qed.

(** [kill_process] on a process whose page table lies in one of the
    pages [1..PAGE_COUNT-1]. *)
Lemma kill_process_spec s p pt :
  wf s -> 0 <= p < MAX_PROC ->
  rd (mem s) (PTP_OFFSET + p) = Some pt -> 1 <= pt < PAGE_COUNT ->
  exists t,
    kill_process p s = Ok (tt, t) /\ wf t /\ out t = out s /\
    (forall a, 256 <= a -> rd (mem t) a = rd (mem s) a) /\
    rd (mem t) pt = Some 0 /\
    rd (mem t) (PTP_OFFSET + p) = Some 0 /\
    (forall j e, 0 <= j < 256 -> rd (mem s) (get_address pt j) = Some e ->
                 e <> 0 -> rd (mem t) e = Some 0) /\
    (forall a, rd (mem t) a = rd (mem s) a \/
               (rd (mem t) a = Some 0 /\
                (a = pt \/ a = PTP_OFFSET + p \/
                 (a <> 0 /\ exists j, 0 <= j < 256 /\
                                      rd (mem s) (get_address pt j) = Some a)))).
Proof.
  unfold MAX_PROC, PAGE_SIZE, PAGE_COUNT, PTP_OFFSET. intros Hwf Hp Hdir Hpt.
  unfold kill_process, PTP_OFFSET. rewrite (Z.add_comm p 64).
  rewrite (bind_Ok _ _ _ _ _ (load_byte_Ok _ _ _ Hdir)).
  rewrite (bind_Ok _ _ _ _ _ (store_byte_Ok _ 0 _ _ Hdir)).
  change (0 mod 256) with 0.
  set (s1 := World (wr (mem s) (64 + p) 0) (out s)).
  assert (Hwf1 : wf s1) by apply (wf_wr s (64 + p) 0 (out s) Hwf).
  assert (Hs1 : forall a, a <> 64 + p -> rd (mem s1) a = rd (mem s) a).
  { intros a Ha. apply rd_wr_ne; [lia|done]. }
  assert (Hs1d : rd (mem s1) (64 + p) = Some 0).
  { apply wf_rd_wr; [done|unfold MEM_SIZE; lia]. }
  destruct (kill_process_loop_spec pt Hpt 256 0 s1 Hwf1)
    as (s2 & Hloop & Hwf2 & Hout2 & Hhigh2 & Hent2 & Hall2); [lia|lia|].
  rewrite (bind_Ok _ _ _ _ _ Hloop).
  destruct (wf_rd s2 pt Hwf2) as [old Hold]; [unfold MEM_SIZE; lia|].
  unfold deallocate_page. rewrite (store_byte_Ok _ 0 _ _ Hold).
  change (0 mod 256) with 0.
  set (t := World (wr (mem s2) pt 0) (out s2)).
  assert (Hwft : wf t) by apply (wf_wr s2 pt 0 (out s2) Hwf2).
  assert (Ht : forall a, a <> pt -> rd (mem t) a = rd (mem s2) a).
  { intros a Ha. apply rd_wr_ne; [lia|done]. }
  assert (Htpt : rd (mem t) pt = Some 0).
  { apply wf_rd_wr; [done|unfold MEM_SIZE; lia]. }
  assert (Hpage : forall j, 0 <= j < 256 ->
                    rd (mem s1) (get_address pt j) = rd (mem s) (get_address pt j)).
  { intros j Hj. apply Hs1. rewrite get_address_add by lia. lia. }
  exists t. split_and!; try done.
  - intros a Ha. rewrite Ht, Hhigh2, Hs1 by lia. done.
  - rewrite Ht by lia. destruct (Hall2 (64 + p)) as [->|[? _]]; done.
  - intros j e Hj He Hne. destruct (decide (e = pt)) as [->|]; [done|].
    rewrite Ht by done. apply (Hent2 j); [done| |done]. by rewrite Hpage.
  - intros a. destruct (decide (a = pt)) as [->|Hapt]; [right; eauto|].
    rewrite Ht by done.
    destruct (decide (a = 64 + p)) as [->|Hadir].
    { right. split; [|eauto]. destruct (Hall2 (64 + p)) as [->|[? _]]; done. }
    destruct (Hall2 a) as [->|(? & ? & j & Hj & Hja)].
    + left. by apply Hs1.
    + right. split; [done|]. right. right. split; [done|].
      exists j. split; [done|]. by rewrite <- Hpage.
Qed.

(** A page-table pointer beyond the last page makes the first read of
    the loop leave the array. *)
Lemma kill_process_beyond s p pt :
  wf s -> rd (mem s) (PTP_OFFSET + p) = Some pt -> PAGE_COUNT <= pt ->
  kill_process p s = OutOfBounds.
Proof.
  unfold PAGE_COUNT, PTP_OFFSET. intros Hwf Hdir Hpt.
  unfold kill_process, PTP_OFFSET. rewrite (Z.add_comm p 64).
  rewrite (bind_Ok _ _ _ _ _ (load_byte_Ok _ _ _ Hdir)).
  rewrite (bind_Ok _ _ _ _ _ (store_byte_Ok _ 0 _ _ Hdir)).
  set (s1 := World _ _).
  assert (Hwf1 : wf s1) by apply (wf_wr s (64 + p) 0 (out s) Hwf).
  change 256%nat with (S 255). cbn [kill_process_loop].
  unfold bind at 1. unfold bind at 1. unfold load_byte.
  destruct (rd (mem s1) (get_address pt 0)) as [b|] eqn:Hb; [|done].
  apply (wf_bounds _ _ _ Hwf1) in Hb. rewrite get_address_add in Hb by lia.
  unfold MEM_SIZE in Hb. lia.
Qed.

(** * Creating a process *)

Lemma wf_wr_byte s a v o : wf s -> 0 <= v < 256 -> wf (World (wr (mem s) a v) o).
Proof.
  intros Hwf Hv. rewrite <- (Z.mod_small v 256) by done. by apply wf_wr.
Qed.

Lemma snoc_neq {A} (l : list A) x : l ++ [x] <> l.
Proof.
  intros H. apply (f_equal length) in H. rewrite length_app in H.
  cbn [length] in H. lia.
Qed.

(** One turn of the [for] loop of [new_process].  Either the allocator
    is exhausted and the function prints and returns, or a page [r]
    above every page handed out so far is taken and recorded in the
    table before the loop goes on. *)
Lemma new_process_loop_step p pt k i s s1 :
  wf s -> 1 <= pt -> 0 <= i -> pt + i <= PAGE_COUNT -> filled (mem s) (pt + i) ->
  new_process_loop (S k) p pt i s = Ok (tt, s1) ->
  (filled (mem s) PAGE_COUNT /\ s1 = World (mem s) (out s ++ [OOM_data_page p]))
  \/ exists r sb,
      pt + i < r <= PAGE_COUNT /\ rd (mem s) r = Some 0 /\
      get_address pt i = pt * 256 + i /\
      wf sb /\ out sb = out s /\ filled (mem sb) (pt + (i + 1)) /\
      rd (mem sb) r = Some 1 /\ rd (mem sb) (get_address pt i) = Some r /\
      (forall a, a <> r -> a <> get_address pt i -> rd (mem sb) a = rd (mem s) a) /\
      new_process_loop k p pt (i + 1) sb = Ok (tt, s1).
Proof.
  unfold PAGE_COUNT. intros Hwf Hpt Hi Hle Hfill. cbn [new_process_loop].
  destruct (allocate_page_spec s Hwf) as [(r & Hr & Hrange & Hfree & Hlow)|[Hr Hnone]];
    rewrite (bind_Ok _ _ _ _ _ Hr); unfold PAGE_COUNT in *.
  2:{ change (255 =? 255) with true. cbv beta iota. unfold print.
      intros [= <-]. by left. }
  assert (Hgt : pt + i < r).
  { destruct (Z.lt_ge_cases (pt + i) r) as [|Hge]; [done|].
    exfalso. apply (Hfill r); [lia|done]. }
  assert (Hga : get_address pt i = pt * 256 + i) by (apply get_address_add; lia).
  destruct (Z.eqb_spec r 255) as [|_]; [lia|].
  set (sa := World (wr (mem s) r 1) (out s)).
  assert (Hwfa : wf sa) by (apply wf_wr_byte; [done|lia]).
  destruct (wf_rd sa (get_address pt i) Hwfa) as [old Hold];
    [unfold MEM_SIZE; lia|].
  rewrite (bind_Ok _ _ _ _ _ (store_byte_Ok _ r _ _ Hold)).
  rewrite Z.mod_small by lia.
  set (sb := World (wr (mem sa) (get_address pt i) r) (out sa)).
  intros Hloop. right. exists r, sb.
  assert (Hsa : forall a, a <> r -> rd (mem sa) a = rd (mem s) a).
  { intros a Ha. apply rd_wr_ne; [lia|done]. }
  assert (Hsb : forall a, a <> get_address pt i -> rd (mem sb) a = rd (mem sa) a).
  { intros a Ha. apply rd_wr_ne; [lia|done]. }
  assert (Hsar : rd (mem sa) r = Some 1).
  { apply wf_rd_wr; [done|unfold MEM_SIZE; lia]. }
  assert (Hsbr : rd (mem sb) r = Some 1) by (rewrite Hsb by lia; done).
  split_and!; try done; try lia.
  - apply wf_wr_byte; [done|lia].
  - intros j Hj. rewrite Hsb by lia.
    destruct (decide (j = r)) as [->|]; [by rewrite Hsar|].
    rewrite Hsa by done. apply Hlow. lia.
  - apply wf_rd_wr; [done|unfold MEM_SIZE; lia].
  - intros a Har Hag. by rewrite Hsb, Hsa.
Qed.

(** What the loop leaves untouched, whether or not it runs out of
    pages. *)
Lemma new_process_loop_frame p pt :
  1 <= pt ->
  forall k i s s1,
    wf s -> 0 <= i -> pt + i <= PAGE_COUNT -> filled (mem s) (pt + i) ->
    new_process_loop k p pt i s = Ok (tt, s1) ->
    wf s1 /\
    (forall a, 256 <= a ->
               (forall j, i <= j < i + Z.of_nat k -> j < PAGE_COUNT ->
                          a <> get_address pt j) ->
               rd (mem s1) a = rd (mem s) a) /\
    (forall a, a < 256 ->
               rd (mem s1) a = rd (mem s) a \/
               (1 <= a <= PAGE_COUNT /\ rd (mem s) a = Some 0 /\ rd (mem s1) a = Some 1)).
Proof.
  intros Hpt. induction k as [|k IH]; intros i s s1 Hwf Hi Hle Hfill Hrun.
  { cbn [new_process_loop] in Hrun. injection Hrun as <-.
    split_and!; try done. intros a _. by left. }
  destruct (new_process_loop_step _ _ _ _ _ _ Hwf Hpt Hi Hle Hfill Hrun)
    as [[_ ->]|(r & sb & Hr & Hfree & Hga & Hwfb & Hout & Hfillb & Hsbr & Hsbe & Hsb & Hloop)].
  { split_and!; [by apply wf_out|done|]. intros a _. by left. }
  destruct (IH (i + 1) sb s1 Hwfb) as (Hwf1 & Hhigh & Hlow); [lia|lia|done|done|].
  unfold PAGE_COUNT in *. split_and!; [done| |].
  - intros a Ha Hne. rewrite Hhigh; [|done|intros j Hj; apply Hne; lia].
    apply Hsb; [lia|]. apply Hne; lia.
  - intros a Ha. destruct (decide (a = r)) as [->|Har].
    + right. split_and!; [lia|lia|done|].
      destruct (Hlow r) as [->|(_ & Hzero & _)]; [lia|done|congruence].
    + destruct (Hlow a Ha) as [->|(? & Hzero & ?)].
      * left. apply Hsb; [done|lia].
      * right. split_and!; [lia|lia| |done]. rewrite <- Hzero. symmetry.
        apply Hsb; [done|lia].
Qed.

(** When the loop ends without printing, every turn took a page that
    was free, and the table lists exactly the pages taken. *)
Lemma new_process_loop_spec p pt :
  1 <= pt ->
  forall k i s s1,
    wf s -> 0 <= i -> pt + i <= PAGE_COUNT -> filled (mem s) (pt + i) ->
    new_process_loop k p pt i s = Ok (tt, s1) -> out s1 = out s ->
    pt + i + Z.of_nat k <= PAGE_COUNT /\
    (forall j, i <= j < i + Z.of_nat k ->
               exists e, rd (mem s1) (get_address pt j) = Some e /\
                         1 <= e <= PAGE_COUNT /\ rd (mem s) e = Some 0) /\
    (forall a, a < 256 ->
               rd (mem s1) a = rd (mem s) a \/
               exists j, i <= j < i + Z.of_nat k /\
                         rd (mem s1) (get_address pt j) = Some a).
Proof.
  intros Hpt. induction k as [|k IH]; intros i s s1 Hwf Hi Hle Hfill Hrun Hquiet.
  { cbn [new_process_loop] in Hrun. injection Hrun as <-.
    split_and!; [lia| |by left]. intros j Hj. lia. }
  destruct (new_process_loop_step _ _ _ _ _ _ Hwf Hpt Hi Hle Hfill Hrun)
    as [[_ ->]|(r & sb & Hr & Hfree & Hga & Hwfb & Hout & Hfillb & Hsbr & Hsbe & Hsb & Hloop)].
  { cbn [out] in Hquiet. by apply snoc_neq in Hquiet. }
  unfold PAGE_COUNT in *.
  destruct (IH (i + 1) sb s1 Hwfb) as (Hbound & Hent & Hlow);
    [lia|lia|done|done|congruence|].
  destruct (new_process_loop_frame p pt Hpt k (i + 1) sb s1 Hwfb)
    as (_ & Hhigh & _); [lia|unfold PAGE_COUNT; lia|done|done|].
  assert (Hentry : rd (mem s1) (get_address pt i) = Some r).
  { rewrite Hhigh; [done|lia|]. intros j Hj Hj64.
    rewrite Hga, get_address_add by lia. lia. }
  split_and!; [lia| |].
  - intros j Hj. destruct (decide (j = i)) as [->|Hji].
    { exists r. split_and!; [done|lia|lia|done]. }
    destruct (Hent j) as (e & He & Hrange & Hzero); [lia|].
    exists e. split_and!; [done|lia|lia|].
    rewrite <- Hzero. symmetry. apply Hsb; [congruence|lia].
  - intros a Ha. destruct (decide (a = r)) as [->|Har].
    { right. exists i. split; [lia|done]. }
    destruct (Hlow a Ha) as [->|(j & Hj & Hja)].
    + left. apply Hsb; [done|lia].
    + right. exists j. split; [lia|done].
Qed.

(** [new_process] in a well-formed world, for a process id inside the
    pointer table: what it may have changed, whatever the outcome. *)
Lemma new_process_frame s p n s1 :
  wf s -> 0 <= p < MAX_PROC ->
  new_process p n s = Ok (tt, s1) ->
  wf s1 /\
  (mem s1 = mem s \/
   exists pt, 1 <= pt <= PAGE_COUNT /\ rd (mem s) pt = Some 0 /\
              rd (mem s1) (PTP_OFFSET + p) = Some pt /\
              rd (mem s1) 0 = rd (mem s) 0 /\
              forall a, 256 <= a ->
                        (forall j, 0 <= j < Z.of_nat (Z.to_nat n) -> j < PAGE_COUNT ->
                                   a <> get_address pt j) ->
                        rd (mem s1) a = rd (mem s) a).
Proof.
  unfold MAX_PROC, PAGE_SIZE, PTP_OFFSET. intros Hwf Hp. unfold new_process.
  destruct (allocate_page_spec s Hwf) as [(pt & Hr & Hrange & Hfree & Hlow)|[Hr Hnone]];
    rewrite (bind_Ok _ _ _ _ _ Hr); unfold PAGE_COUNT, PTP_OFFSET in *.
  2:{ change (255 =? 255) with true. cbv beta iota. unfold print.
      intros [= <-]. split; [by apply wf_out|by left]. }
  destruct (Z.eqb_spec pt 255) as [|_]; [lia|].
  set (sa := World (wr (mem s) pt 1) (out s)).
  assert (Hwfa : wf sa) by (apply wf_wr_byte; [done|lia]).
  destruct (wf_rd sa (64 + p) Hwfa) as [old Hold]; [unfold MEM_SIZE; lia|].
  rewrite (bind_Ok _ _ _ _ _ (store_byte_Ok _ pt _ _ Hold)).
  rewrite Z.mod_small by lia.
  set (sb := World (wr (mem sa) (64 + p) pt) (out sa)).
  assert (Hwfb : wf sb) by (apply wf_wr_byte; [done|lia]).
  assert (Hsa : forall a, a <> pt -> rd (mem sa) a = rd (mem s) a).
  { intros a Ha. apply rd_wr_ne; [lia|done]. }
  assert (Hsb : forall a, a <> 64 + p -> rd (mem sb) a = rd (mem sa) a).
  { intros a Ha. apply rd_wr_ne; [lia|done]. }
  assert (Hsbd : rd (mem sb) (64 + p) = Some pt).
  { apply wf_rd_wr; [done|unfold MEM_SIZE; lia]. }
  assert (Hfillb : filled (mem sb) (pt + 0)).
  { intros j Hj. destruct (decide (j = 64 + p)) as [->|];
      [rewrite Hsbd; intros [= ?]; lia|].
    rewrite Hsb by done. destruct (decide (j = pt)) as [->|].
    - unfold sa; cbn [mem]. rewrite wf_rd_wr; [done|done|unfold MEM_SIZE; lia].
    - rewrite Hsa by done. apply Hlow. lia. }
  intros Hloop.
  destruct (new_process_loop_frame p pt (proj1 Hrange) (Z.to_nat n) 0 sb s1 Hwfb)
    as (Hwf1 & Hhigh & Hlow1); [lia|unfold PAGE_COUNT; lia|done|done|].
  split; [done|]. right. exists pt. unfold PAGE_COUNT in *. split_and!; try done; try lia.
  - destruct (Hlow1 (64 + p)) as [->|(_ & Hzero & _)]; [lia|done|].
    rewrite Hsbd in Hzero. injection Hzero as ?. lia.
  - destruct (Hlow1 0) as [->|(? & _)]; [lia| |lia].
    rewrite Hsb, Hsa by lia. done.
  - intros a Ha Hne. rewrite Hhigh; [|done|intros j Hj; apply Hne; lia].
    rewrite Hsb, Hsa by lia. done.
Qed.

(** [new_process] when it prints nothing. *)
Lemma new_process_spec s p n s1 :
  wf s -> 0 <= p < MAX_PROC ->
  new_process p n s = Ok (tt, s1) -> out s1 = out s ->
  exists pt,
    1 <= pt <= PAGE_COUNT /\ rd (mem s) pt = Some 0 /\
    wf s1 /\ rd (mem s1) (PTP_OFFSET + p) = Some pt /\
    pt + Z.of_nat (Z.to_nat n) <= PAGE_COUNT /\
    (forall j, 0 <= j < Z.of_nat (Z.to_nat n) ->
               exists e, rd (mem s1) (get_address pt j) = Some e /\
                         1 <= e <= PAGE_COUNT /\ e <> pt /\ rd (mem s) e = Some 0) /\
    (forall a, a < 256 ->
               rd (mem s1) a = rd (mem s) a \/ a = pt \/ a = PTP_OFFSET + p \/
               exists j, 0 <= j < Z.of_nat (Z.to_nat n) /\
                         rd (mem s1) (get_address pt j) = Some a).
Proof.
  unfold MAX_PROC, PAGE_SIZE, PTP_OFFSET. intros Hwf Hp. unfold new_process.
  destruct (allocate_page_spec s Hwf) as [(pt & Hr & Hrange & Hfree & Hlow)|[Hr Hnone]];
    rewrite (bind_Ok _ _ _ _ _ Hr); unfold PAGE_COUNT, PTP_OFFSET in *.
  2:{ change (255 =? 255) with true. cbv beta iota. unfold print.
      intros [= <-] Hquiet. cbn [out] in Hquiet. by apply snoc_neq in Hquiet. }
  destruct (Z.eqb_spec pt 255) as [|_]; [lia|].
  set (sa := World (wr (mem s) pt 1) (out s)).
  assert (Hwfa : wf sa) by (apply wf_wr_byte; [done|lia]).
  destruct (wf_rd sa (64 + p) Hwfa) as [old Hold]; [unfold MEM_SIZE; lia|].
  rewrite (bind_Ok _ _ _ _ _ (store_byte_Ok _ pt _ _ Hold)).
  rewrite Z.mod_small by lia.
  set (sb := World (wr (mem sa) (64 + p) pt) (out sa)).
  assert (Hwfb : wf sb) by (apply wf_wr_byte; [done|lia]).
  assert (Hsa : forall a, a <> pt -> rd (mem sa) a = rd (mem s) a).
  { intros a Ha. apply rd_wr_ne; [lia|done]. }
  assert (Hsb : forall a, a <> 64 + p -> rd (mem sb) a = rd (mem sa) a).
  { intros a Ha. apply rd_wr_ne; [lia|done]. }
  assert (Hsbd : rd (mem sb) (64 + p) = Some pt).
  { apply wf_rd_wr; [done|unfold MEM_SIZE; lia]. }
  assert (Hsapt : rd (mem sa) pt = Some 1).
  { apply wf_rd_wr; [done|unfold MEM_SIZE; lia]. }
  assert (Hused : forall e, rd (mem sb) e = Some 0 -> e <> pt /\ e <> 64 + p).
  { intros e He. split; intros ->.
    - destruct (decide (pt = 64 + p)) as [Heq|Hne].
      + rewrite Heq, Hsbd in He. injection He as ?. lia.
      + rewrite Hsb in He by done. congruence.
    - rewrite Hsbd in He. injection He as ?. lia. }
  assert (Hfillb : filled (mem sb) (pt + 0)).
  { intros j Hj Hzero. destruct (Hused j Hzero) as [? ?].
    revert Hzero. rewrite Hsb, Hsa by done. apply Hlow. lia. }
  intros Hloop Hquiet.
  destruct (new_process_loop_spec p pt (proj1 Hrange) (Z.to_nat n) 0 sb s1 Hwfb)
    as (Hbound & Hent & Hlow1); [lia|unfold PAGE_COUNT; lia|done|done|done|].
  destruct (new_process_loop_frame p pt (proj1 Hrange) (Z.to_nat n) 0 sb s1 Hwfb)
    as (Hwf1 & _ & _); [lia|unfold PAGE_COUNT; lia|done|done|].
  exists pt. unfold PAGE_COUNT in *. split_and!; try done; try lia.
  - destruct (Hlow1 (64 + p)) as [->|(j & Hj & Hja)]; [lia|done|].
    destruct (Hent j Hj) as (e & He & _ & Hzero).
    assert (e = 64 + p) as -> by congruence.
    by destruct (Hused _ Hzero).
  - intros j Hj. destruct (Hent j Hj) as (e & He & Herange & Hzero).
    destruct (Hused e Hzero) as [? ?].
    exists e. split_and!; try done; try lia. rewrite <- Hzero, Hsb, Hsa; done.
  - intros a Ha. destruct (decide (a = pt)); [by auto|].
    destruct (decide (a = 64 + p)); [by auto|].
    destruct (Hlow1 a Ha) as [->|?]; [|by auto]. left. by rewrite Hsb, Hsa.
Qed.

(** * The page allocator *)

(** C1.  The claim: [allocate_page] hands out the lowest free page among
    [1..PAGE_COUNT-1], answers 0xff exactly when all of them are in use,
    and never reads or writes past the free map.  The code runs its loop
    one index too far.  After [np 1 62] every page [1..63] is in use and
    the byte that follows the free map, the page-table pointer of
    process 0 at index [PAGE_COUNT], is 0; [allocate_page] then answers
    [PAGE_COUNT] instead of 0xff and sets that byte to 1. *)
Theorem allocate_page_runs_past_free_map :
  let s := world_after [Np 1 62] in
  main [Np 1 62] = Ok (tt, s) /\
  free_map s = replicate (Z.to_nat PAGE_COUNT) 1 /\
  dir_entry s 0 = Some 0 /\
  allocate_page s = Ok (PAGE_COUNT, World (wr (mem s) PAGE_COUNT 1) (out s)) /\
  dir_entry (World (wr (mem s) PAGE_COUNT 1) (out s)) 0 = Some 1.
Proof. intros s. split_and!; vm_compute; reflexivity. Qed.

(** * Killing a process that has no page table *)

(** C2.  The claim: [kill_process] on a process whose pointer is 0
    changes nothing and does not free page 0.  The code takes page 0 for
    the page table of such a process.  In the initial world
    [kill_process 0] clears the free-map byte of page 0.  After
    [np 0 2] and [np 1 1], killing process 5, which was never created,
    frees page 0, page 1 (the page table of process 0) and page 4 (the
    page table of process 1). *)
Theorem kill_process_without_page_table :
  let s := world_after [Np 0 2; Np 1 1] in
  let t := world_after [Np 0 2; Np 1 1; Kp 5] in
  dir_entry fresh 0 = Some 0 /\
  rd (mem fresh) 0 = Some 1 /\
  kill_process 0 fresh = Ok (tt, boot) /\
  rd (mem boot) 0 = Some 0 /\
  main [Np 0 2; Np 1 1] = Ok (tt, s) /\
  main [Np 0 2; Np 1 1; Kp 5] = Ok (tt, t) /\
  dir_entry s 5 = Some 0 /\
  take 6 (free_map s) = [1; 1; 1; 1; 1; 1] /\
  take 6 (free_map t) = [0; 0; 1; 1; 0; 1].
Proof. intros s t. split_and!; vm_compute; reflexivity. Qed.

(** * Running out of pages *)

(** C4.  The claim: [new_process] reports out-of-memory exactly when the
    page count exceeds the number of free pages minus one, and
    [np 1 64] on the initial store fails at data page index 62.  With 63
    pages free, [np 1 63] prints nothing.  [np 1 64] gets 63 data pages:
    table entries 0 to 62 hold 2 to 64, the last one being the index
    just past the free map, so the pointer of process 0 now reads 1; the
    out-of-memory line comes at index 63. *)
Theorem new_process_fails_one_page_late :
  let s := world_after [Np 1 64] in
  let s' := world_after [Np 1 63] in
  main [Np 1 64] = Ok (tt, s) /\
  out s = [OOM_data_page 1] /\
  dir_entry s 1 = Some 1 /\
  take 64 (drop 256 (mem s)) = seqZ 2 63 ++ [0] /\
  pte s 1 62 = Some PAGE_COUNT /\
  pte s 1 63 = Some 0 /\
  dir_entry s 0 = Some 1 /\
  main [Np 1 63] = Ok (tt, s') /\
  out s' = [].
Proof. intros s s'. split_and!; vm_compute; reflexivity. Qed.

(** * Counterexamples *)

(** C3, as stated, fails: a store through a page-table entry that is 0
    lands in page 0.  Process 0 has one page; virtual page 1 is not
    mapped, so [sb 0 256 0] writes 0 to address 0, the free-map byte of
    page 0. *)
Lemma store_clears_page0_byte :
  let cs := [Np 0 1; Sb 0 256 0] in
  main cs = Ok (tt, world_after cs) /\
  pte (world_after [Np 0 1]) 1 1 = Some 0 /\
  rd (mem (world_after cs)) 0 = Some 0.
Proof. intros cs. split_and!; vm_compute; reflexivity. Qed.

(** C5.  The claim: [kill_process] right after a [new_process] that
    printed nothing brings the free map back to what it was.
    [new_process] does not clear the page it takes as page table, and
    [kill_process] frees every page named by a nonzero byte of that
    page.  Here only [np] and [kp] are run, each [kp] on a process that
    has a page table.  Page 2 was the page table of process 1 with
    entry 0 naming page 3; at the end of [pre] it is free, page 3 is the
    page table of process 3 and page 1 that of process 4.  [np 5 0]
    takes page 2 and prints nothing; [kp 5] then frees page 3 along
    with page 2, so the free map is not the one before [np 5 0] and
    process 3 has lost its page table. *)
Theorem new_then_kill_frees_live_page_table :
  let pre := [Np 0 0; Np 1 1; Kp 1; Kp 0; Np 2 1; Np 3 0; Kp 2; Np 4 0] in
  let s0 := world_after pre in
  let s1 := world_after (pre ++ [Np 5 0]) in
  let s2 := world_after (pre ++ [Np 5 0; Kp 5]) in
  main pre = Ok (tt, s0) /\ guarded pre fresh = true /\
  dir_entry s0 3 = Some 3 /\ dir_entry s0 4 = Some 1 /\
  take 4 (free_map s0) = [1; 1; 0; 1] /\
  new_process 5 0 s0 = Ok (tt, s1) /\ out s1 = out s0 /\
  dir_entry s1 5 = Some 2 /\ pte s1 2 0 = Some 3 /\
  kill_process 5 s1 = Ok (tt, s2) /\
  take 4 (free_map s2) = [1; 1; 0; 0] /\
  dir_entry s2 3 = Some 3 /\
  free_map s2 <> free_map s0.
Proof.
  intros pre s0 s1 s2. split_and!; try (vm_compute; reflexivity).
  intros H. apply (f_equal (take 4)) in H. vm_compute in H. discriminate.
Qed.

(** C6, as stated, fails: a mapped virtual page may point at the page
    table itself.  Page 2 was a data page with byte 1 set to 2 and
    becomes the page table of process 2, so its virtual page 1 is mapped
    to page 2.  [sb 2 257 7] overwrites that very entry, and
    [lb 2 257] then reads address 1793 and prints 0, not 7. *)
Lemma store_then_load_through_own_table :
  let s := world_after [Np 0 1; Sb 0 1 2; Kp 0; Np 1 0; Np 2 0] in
  let s1 := World (wr (mem s) 513 7) (out s ++ [Store_line 2 257 513 7]) in
  main [Np 0 1; Sb 0 1 2; Kp 0; Np 1 0; Np 2 0] = Ok (tt, s) /\
  dir_entry s 2 = Some 2 /\ pte s 2 1 = Some 2 /\
  store_value 2 257 7 s = Ok (tt, s1) /\
  load_value 2 257 s1 = Ok (tt, World (mem s1) (out s1 ++ [Load_line 2 257 1793 0])).
Proof. intros s s1. split_and!; vm_compute; reflexivity. Qed.

(** * Address translation, store and load *)

Lemma get_page_table_dir_entry p s :
  get_page_table p s =
  match dir_entry s p with Some b => Ok (b, s) | None => OutOfBounds end.
Proof. unfold get_page_table, dir_entry. by rewrite get_address_0. Qed.

Lemma get_physical_addr_Ok p va s pt e :
  rd (mem s) (PTP_OFFSET + p) = Some pt ->
  rd (mem s) (get_address pt (Z.shiftr va PAGE_SHIFT)) = Some e ->
  get_physical_addr p va s = Ok (get_address e (Z.land va 255), s).
Proof.
  intros Hpt He. unfold get_physical_addr. rewrite (Z.add_comm p).
  rewrite (bind_Ok _ _ _ _ _ (load_byte_Ok _ _ _ Hpt)).
  by rewrite (bind_Ok _ _ _ _ _ (load_byte_Ok _ _ _ He)).
Qed.

Lemma get_physical_addr_inv p va s a s' :
  get_physical_addr p va s = Ok (a, s') ->
  s' = s /\
  exists pt e, rd (mem s) (PTP_OFFSET + p) = Some pt /\
               rd (mem s) (get_address pt (Z.shiftr va PAGE_SHIFT)) = Some e /\
               a = get_address e (Z.land va 255).
Proof.
  unfold get_physical_addr. rewrite (Z.add_comm p).
  intros (pt & s1 & [-> Hpt]%load_byte_inv & H)%bind_inv.
  apply bind_inv in H as (e & s2 & [-> He]%load_byte_inv & H).
  injection H as <- <-. eauto 6.
Qed.

Lemma land_255_bounds va : 0 <= Z.land va 255 < 256.
Proof.
  change 255 with (Z.ones 8). rewrite Z.land_ones by lia.
  apply Z.mod_pos_bound. lia.
Qed.

(** C10.  [get_physical_addr] and [load_value] do not write: the first
    returns the world it was given, the second returns the same memory
    and adds one line, the value it read, to the output. *)
Theorem translate_and_load_read_only p va s :
  (forall a s', get_physical_addr p va s = Ok (a, s') -> s' = s) /\
  (forall s', load_value p va s = Ok (tt, s') ->
              mem s' = mem s /\
              exists pa v, get_physical_addr p va s = Ok (pa, s) /\
                           rd (mem s) pa = Some v /\
                           out s' = out s ++ [Load_line p va pa v]).
Proof.
  split.
  - intros a s' H. by apply get_physical_addr_inv in H as [-> _].
  - intros s'. unfold load_value.
    intros (pa & s1 & Hpa & H)%bind_inv.
    pose proof (get_physical_addr_inv _ _ _ _ _ Hpa) as [-> _].
    apply bind_inv in H as (v & s2 & [-> Hv]%load_byte_inv & H).
    unfold print in H. injection H as <-. split; [done|].
    exists pa, v. by split_and!.
Qed.

Lemma translate_and_load_read_only_witness :
  let s := world_after [Np 0 2; Sb 0 0 42] in
  let s' := World (mem s) (out s ++ [Load_line 0 0 512 42]) in
  get_physical_addr 0 0 s = Ok (512, s) /\ load_value 0 0 s = Ok (tt, s') /\
  s = s /\ mem s' = mem s.
Proof.
  intros s s'.
  assert (H1 : get_physical_addr 0 0 s = Ok (512, s)) by (vm_compute; reflexivity).
  assert (H2 : load_value 0 0 s = Ok (tt, s')) by (vm_compute; reflexivity).
  split_and!; [exact H1|exact H2| |].
  - exact (proj1 (translate_and_load_read_only 0 0 s) 512 s H1).
  - exact (proj1 (proj2 (translate_and_load_read_only 0 0 s) s' H2)).
Defined.

(** C8.  When the first [allocate_page] of [new_process] answers 0xff,
    [new_process] prints the page-table line and returns with the
    memory as it was: the pointer of the process is not written, and a
    pointer that was 0 is still 0. *)
Theorem new_process_page_table_oom s p n s' :
  wf s ->
  allocate_page s = Ok (Exhausted, s') ->
  let s1 := World (mem s) (out s ++ [OOM_page_table p]) in
  new_process p n s = Ok (tt, s1) /\
  dir_entry s1 p = dir_entry s p /\
  (dir_entry s p = Some 0 -> dir_entry s1 p = Some 0).
Proof.
  intros Hwf Halloc s1. unfold Exhausted in Halloc.
  assert (s' = s) as ->.
  { destruct (allocate_page_spec s Hwf) as [(r & Hr & Hrange & _)|[Hr _]].
    - rewrite Hr in Halloc. injection Halloc as -> _. unfold PAGE_COUNT in Hrange. lia.
    - rewrite Hr in Halloc. by injection Halloc as <-. }
  split_and!; [|done|done].
  unfold new_process. rewrite (bind_Ok _ _ _ _ _ Halloc). done.
Qed.

Lemma store_value_inv p va v s s' :
  store_value p va v s = Ok (tt, s') ->
  exists a, get_physical_addr p va s = Ok (a, s) /\ is_Some (rd (mem s) a) /\
            s' = World (wr (mem s) a (v mod 256)) (out s ++ [Store_line p va a v]).
Proof.
  unfold store_value. intros (a & s1 & Ha & H)%bind_inv.
  pose proof (get_physical_addr_inv _ _ _ _ _ Ha) as [-> _].
  apply bind_inv in H as ([] & s2 & [-> Hin]%store_byte_inv & H).
  unfold print in H. cbn [mem out] in H. injection H as <-. eauto.
Qed.

Lemma load_value_inv p va s s' :
  load_value p va s = Ok (tt, s') -> mem s' = mem s.
Proof.
  unfold load_value. intros (pa & s1 & Hpa & H)%bind_inv.
  pose proof (get_physical_addr_inv _ _ _ _ _ Hpa) as [-> _].
  apply bind_inv in H as (v & s2 & [-> Hv]%load_byte_inv & H).
  unfold print in H. by injection H as <-.
Qed.

(** * The free-map byte of page 0 *)

Lemma initialize_mem_boot : initialize_mem boot = Ok (tt, fresh).
Proof. vm_compute. reflexivity. Qed.

Lemma main_fresh cs : main cs = run_commands cs fresh.
Proof. unfold main. by rewrite (bind_Ok _ _ _ _ _ initialize_mem_boot). Qed.

Lemma run_command_keeps_page0 c s s' :
  wf s -> keeps_page0 c s = true -> run_command c s = Ok (tt, s') ->
  wf s' /\ rd (mem s') 0 = rd (mem s) 0.
Proof.
  intros Hwf Hguard Hrun. destruct c as [p n|p|p va v|p va];
    cbn [run_command keeps_page0] in *.
  - apply andb_prop in Hguard as [H0%Z.leb_le H1%Z.ltb_lt].
    destruct (new_process_frame s p n s' Hwf (conj H0 H1) Hrun)
      as [Hwf' [Hmem|(pt & _ & _ & _ & Hzero & _)]]; [|done].
    by rewrite Hmem.
  - apply andb_prop in Hguard as [[H0%Z.leb_le H1%Z.ltb_lt]%andb_prop Hdir].
    unfold dir_entry in Hdir.
    destruct (rd (mem s) (PTP_OFFSET + p)) as [pt|] eqn:Hpt; [|done].
    apply negb_true_iff, Z.eqb_neq in Hdir.
    pose proof (wf_byte _ _ _ Hwf Hpt) as Hbyte.
    destruct (Z.lt_ge_cases pt PAGE_COUNT) as [Hlt|Hge].
    + destruct (kill_process_spec s p pt Hwf (conj H0 H1) Hpt)
        as (t & Ht & Hwft & _ & _ & _ & _ & _ & Hall); [lia|].
      rewrite Ht in Hrun. injection Hrun as <-. split; [done|].
      unfold PTP_OFFSET in Hall.
      destruct (Hall 0) as [?|(_ & [?|[?|[? _]]])]; [done|lia|lia|done].
    + by rewrite (kill_process_beyond s p pt) in Hrun.
  - apply store_value_inv in Hrun as (a & Ha & [old Hold] & ->).
    rewrite Ha in Hguard. apply negb_true_iff, Z.eqb_neq in Hguard.
    cbn [mem]. split; [by apply wf_wr|].
    apply rd_wr_ne; [|done]. by apply rd_Some_bounds in Hold as [? _].
  - apply load_value_inv in Hrun as Hmem. rewrite Hmem. split; [|done].
    destruct Hwf as [? ?]. split; by rewrite Hmem.
Qed.

Lemma run_commands_keep_page0 cs :
  forall s s',
    wf s -> guarded cs s = true -> run_commands cs s = Ok (tt, s') ->
    wf s' /\ rd (mem s') 0 = rd (mem s) 0.
Proof.
  induction cs as [|c cs IH]; intros s s' Hwf Hguard Hrun.
  - cbn [run_commands] in Hrun. by injection Hrun as <-.
  - cbn [run_commands guarded] in *.
    apply andb_prop in Hguard as [Hc Hcs].
    apply bind_inv in Hrun as ([] & s1 & Hstep & Hrest).
    rewrite Hstep in Hcs.
    destruct (run_command_keeps_page0 c s s1 Hwf Hc Hstep) as [Hwf1 Hzero1].
    destruct (IH s1 s' Hwf1 Hcs Hrest) as [Hwf' Hzero']. split; [done|congruence].
Qed.

(** The worlds [main] reaches through guarded commands are well
    formed. *)
Lemma wf_world_after cs :
  guarded cs fresh = true -> main cs = Ok (tt, world_after cs) ->
  wf (world_after cs).
Proof.
  intros Hguard Hmain. rewrite main_fresh in Hmain.
  by destruct (run_commands_keep_page0 cs fresh _ wf_fresh Hguard Hmain).
Qed.

(** C3, amended.  In the initial world page 0 is the only page in use.
    After any run of [np], [kp], [sb] and [lb] commands whose process
    ids lie inside the pointer table, whose [kp] commands name a
    process that has a page table and whose [sb] commands do not
    translate to address 0, the free-map byte of page 0 is still 1, and
    [allocate_page] in that world does not answer 0 and leaves the byte
    alone. *)
Theorem page0_stays_reserved cs s :
  guarded cs fresh = true ->
  main cs = Ok (tt, s) ->
  main [] = Ok (tt, fresh) /\
  free_map fresh = 1 :: replicate (Z.to_nat (PAGE_COUNT - 1)) 0 /\
  rd (mem s) 0 = Some 1 /\
  (forall r s', allocate_page s = Ok (r, s') -> r <> 0 /\ rd (mem s') 0 = Some 1).
Proof.
  intros Hguard Hmain. rewrite main_fresh in Hmain.
  destruct (run_commands_keep_page0 cs fresh s wf_fresh Hguard Hmain)
    as [Hwf Hzero].
  assert (Hbyte : rd (mem s) 0 = Some 1) by (rewrite Hzero; vm_compute; reflexivity).
  split_and!; [vm_compute; reflexivity|vm_compute; reflexivity|done|].
  intros r s' Halloc.
  destruct (allocate_page_spec s Hwf) as [(r' & Hr & Hrange & _)|[Hr _]];
    rewrite Hr in Halloc; injection Halloc as <- <-.
  - split; [lia|]. cbn [mem]. rewrite rd_wr_ne by lia. done.
  - split; [lia|done].
Qed.

Lemma page0_stays_reserved_witness :
  let cs := [Np 0 2; Sb 0 0 42; Lb 0 0; Kp 0] in
  rd (mem (world_after cs)) 0 = Some 1.
Proof.
  intros cs.
  assert (Hguard : guarded cs fresh = true) by (vm_compute; reflexivity).
  assert (Hmain : main cs = Ok (tt, world_after cs)) by (vm_compute; reflexivity).
  exact (proj1 (proj2 (proj2 (page0_stays_reserved cs _ Hguard Hmain)))).
Defined.

Lemma new_process_page_table_oom_witness :
  let s := world_after [Np 0 62] in
  new_process 1 5 s = Ok (tt, World (mem s) (out s ++ [OOM_page_table 1])) /\
  dir_entry s 1 = Some 0.
Proof.
  intros s.
  assert (Hwf : wf s).
  { apply wf_world_after; vm_compute; reflexivity. }
  assert (Halloc : allocate_page s = Ok (Exhausted, s)) by (vm_compute; reflexivity).
  split; [|vm_compute; reflexivity].
  exact (proj1 (new_process_page_table_oom s 1 5 s Hwf Halloc)).
Defined.

(** * Store followed by load *)

Lemma shiftr_8_bounds va : 0 <= va < 65536 -> 0 <= Z.shiftr va PAGE_SHIFT < 256.
Proof.
  intros Hva. unfold PAGE_SHIFT. rewrite Z.shiftr_div_pow2 by lia.
  change (2 ^ 8) with 256. split.
  - apply Z.div_pos; lia.
  - apply Z.div_lt_upper_bound; lia.
Qed.

(** C6, amended.  For a process id inside the pointer table and a
    16-bit virtual address whose virtual page is mapped to one of the
    pages [1..PAGE_COUNT-1] other than the page table of the process,
    [store_value] followed by [load_value] prints the stored value
    modulo 256. *)
Theorem store_then_load s p va v pt e :
  wf s -> 0 <= p < MAX_PROC -> 0 <= va < 65536 ->
  dir_entry s p = Some pt ->
  pte s pt (Z.shiftr va PAGE_SHIFT) = Some e ->
  1 <= e < PAGE_COUNT -> e <> pt ->
  let a := get_address e (Z.land va 255) in
  let s1 := World (wr (mem s) a (v mod 256)) (out s ++ [Store_line p va a v]) in
  store_value p va v s = Ok (tt, s1) /\
  load_value p va s1 = Ok (tt, World (mem s1) (out s1 ++ [Load_line p va a (v mod 256)])).
Proof.
  intros Hwf Hp Hva Hpt He Hrange Hne a s1.
  unfold MAX_PROC, PAGE_SIZE, PTP_OFFSET, PAGE_COUNT, dir_entry, pte in *.
  pose proof (land_255_bounds va) as Hoff.
  pose proof (shiftr_8_bounds va Hva) as Hvp.
  pose proof (wf_byte _ _ _ Hwf Hpt) as Hptb.
  assert (Ha : a = e * 256 + Z.land va 255) by (by apply get_address_add).
  destruct (wf_rd s a Hwf) as [old Hold]; [unfold MEM_SIZE; lia|].
  pose proof (get_physical_addr_Ok p va s pt e Hpt He) as Htr. fold a in Htr.
  split.
  - unfold store_value. rewrite (bind_Ok _ _ _ _ _ Htr).
    by rewrite (bind_Ok _ _ _ _ _ (store_byte_Ok _ v _ _ Hold)).
  - assert (Hs1 : forall a', a' <> a -> rd (mem s1) a' = rd (mem s) a').
    { intros a' Ha'. apply rd_wr_ne; [lia|done]. }
    assert (Htr1 : get_physical_addr p va s1 = Ok (a, s1)).
    { apply (get_physical_addr_Ok p va s1 pt e).
      - rewrite Hs1; [done|]. unfold PTP_OFFSET. lia.
      - rewrite Hs1; [done|]. rewrite get_address_add by done. lia. }
    assert (Hval : rd (mem s1) a = Some (v mod 256)).
    { apply wf_rd_wr; [done|unfold MEM_SIZE; lia]. }
    unfold load_value. rewrite (bind_Ok _ _ _ _ _ Htr1).
    by rewrite (bind_Ok _ _ _ _ _ (load_byte_Ok _ _ _ Hval)).
Qed.

Lemma store_then_load_witness :
  let s := world_after [Np 0 2] in
  let s1 := World (wr (mem s) 512 42) (out s ++ [Store_line 0 0 512 298]) in
  store_value 0 0 298 s = Ok (tt, s1) /\
  load_value 0 0 s1 = Ok (tt, World (mem s1) (out s1 ++ [Load_line 0 0 512 42])).
Proof.
  intros s.
  assert (Hwf : wf s) by (apply wf_world_after; vm_compute; reflexivity).
  apply (store_then_load s 0 0 298 1 2 Hwf); try (vm_compute; reflexivity).
  all: unfold MAX_PROC, PAGE_SIZE, PTP_OFFSET, PAGE_COUNT; lia.
Defined.

(** * Stale page tables *)

(** C9.  [kill_process] on a process whose pointer is not 0 writes only
    inside page 0: every byte from address [PAGE_SIZE] on, and so every
    entry of the page table it walked, is as before.  It returns
    whenever the pointer names one of the pages.  A later [new_process]
    whose page table is that same page finds the old entries at every
    index it does not write, the indices from its page count on. *)
Theorem kill_process_keeps_page_table s p pt :
  wf s -> 0 <= p < MAX_PROC -> dir_entry s p = Some pt -> pt <> 0 ->
  (pt < PAGE_COUNT -> exists t, kill_process p s = Ok (tt, t)) /\
  forall t,
    kill_process p s = Ok (tt, t) ->
    (forall a, PAGE_SIZE <= a -> rd (mem t) a = rd (mem s) a) /\
    (forall i, 0 <= i < PAGE_SIZE -> pte t pt i = pte s pt i) /\
    forall q n t',
      0 <= q < MAX_PROC -> new_process q n t = Ok (tt, t') ->
      dir_entry t' q = Some pt ->
      forall i, 0 <= i < PAGE_SIZE -> n <= i -> pte t' pt i = pte s pt i.
Proof.
  unfold dir_entry, pte. intros Hwf Hp Hpt Hnz.
  pose proof (wf_byte _ _ _ Hwf Hpt) as Hbyte.
  destruct (Z.lt_ge_cases pt PAGE_COUNT) as [Hlt|Hge].
  2:{ split; [lia|]. intros t Ht.
      by rewrite (kill_process_beyond s p pt) in Ht. }
  destruct (kill_process_spec s p pt Hwf Hp Hpt)
    as (t0 & Ht0 & Hwft & _ & Hhigh & _); [lia|].
  split; [by eauto|]. intros t Ht. rewrite Ht0 in Ht. injection Ht as <-.
  assert (Hpage : forall i, 0 <= i < PAGE_SIZE ->
            rd (mem t0) (get_address pt i) = rd (mem s) (get_address pt i)).
  { unfold PAGE_SIZE. intros i Hi. apply Hhigh.
    rewrite get_address_add by done. lia. }
  split_and!; [done|done|].
  intros q n t' Hq Hnew Hdir i Hi Hni. rewrite <- Hpage by done.
  destruct (new_process_frame t0 q n t' Hwft Hq Hnew)
    as [_ [Hmem|(pt' & _ & _ & Hdir' & _ & Hframe)]]; [by rewrite Hmem|].
  assert (pt' = pt) as -> by congruence.
  unfold PAGE_SIZE, PAGE_COUNT in *. apply Hframe.
  - rewrite get_address_add by done. lia.
  - intros j Hj Hj64. rewrite !get_address_add by lia. lia.
Qed.

Lemma kill_process_keeps_page_table_witness :
  let s := world_after [Np 0 2] in
  let t := world_after [Np 0 2; Kp 0] in
  let t' := world_after [Np 0 2; Kp 0; Np 1 1] in
  pte t 1 0 = Some 2 /\ pte t 1 1 = Some 3 /\ pte t' 1 1 = pte s 1 1.
Proof.
  intros s t t'.
  assert (Hwf : wf s) by (apply wf_world_after; vm_compute; reflexivity).
  assert (Hp : 0 <= 0 < MAX_PROC) by (unfold MAX_PROC, PAGE_SIZE, PTP_OFFSET; lia).
  assert (Hq : 0 <= 1 < MAX_PROC) by (unfold MAX_PROC, PAGE_SIZE, PTP_OFFSET; lia).
  assert (Hdir : dir_entry s 0 = Some 1) by (vm_compute; reflexivity).
  assert (Hkill : kill_process 0 s = Ok (tt, t)) by (vm_compute; reflexivity).
  assert (Hnew : new_process 1 1 t = Ok (tt, t')) by (vm_compute; reflexivity).
  assert (Hdir' : dir_entry t' 1 = Some 1) by (vm_compute; reflexivity).
  destruct (kill_process_keeps_page_table s 0 1 Hwf Hp Hdir) as [_ Hafter]; [lia|].
  destruct (Hafter t Hkill) as (_ & Hpage & Hlater).
  split_and!; [vm_compute; reflexivity|vm_compute; reflexivity|].
  apply (Hlater 1 1 t' Hq Hnew Hdir' 1); unfold PAGE_SIZE; lia.
Defined.

(** * Creating and then killing a process *)

Lemma free_map_eq s t :
  (forall a, 0 <= a < PAGE_COUNT -> rd (mem t) a = rd (mem s) a) ->
  free_map t = free_map s.
Proof.
  intros Hsame. unfold free_map. apply list_eq. intros i.
  destruct (decide (i < Z.to_nat PAGE_COUNT)%nat) as [Hlt|Hge].
  - rewrite !lookup_take_lt by done.
    specialize (Hsame (Z.of_nat i)). unfold rd in Hsame.
    rewrite !decide_True, !Nat2Z.id in Hsame by lia. apply Hsame.
    unfold PAGE_COUNT in *. lia.
  - rewrite !lookup_take_ge by lia. done.
Qed.

Lemma clean_from_spec s pt n :
  clean_from s pt n = true ->
  forall i, 0 <= i < PAGE_SIZE -> n <= i -> pte s pt i = Some 0.
Proof.
  unfold clean_from. rewrite forallb_forall. intros Hall i Hi Hn.
  specialize (Hall i). destruct (pte s pt i) as [b|].
  - f_equal. apply Z.eqb_eq, Hall, list_elem_of_In, elem_of_seqZ. lia.
  - discriminate Hall. apply list_elem_of_In, elem_of_seqZ. lia.
Qed.

(** The round trip on a clean table.  Let [new_process p n] print
    nothing, with [p] inside the pointer table, and let the page table
    it set up be one of the pages [1..PAGE_COUNT-1] whose entries from
    index [n] on are 0.  Then [kill_process p] right after it returns,
    the free map is again what it was before [new_process], and the
    pointer of [p] is 0. *)
Theorem new_then_kill_restores_free_map s0 p n s1 pt :
  wf s0 -> 0 <= p < MAX_PROC ->
  new_process p n s0 = Ok (tt, s1) -> out s1 = out s0 ->
  dir_entry s1 p = Some pt -> pt < PAGE_COUNT ->
  (forall i, 0 <= i < PAGE_SIZE -> n <= i -> pte s1 pt i = Some 0) ->
  exists s2,
    kill_process p s1 = Ok (tt, s2) /\
    free_map s2 = free_map s0 /\
    dir_entry s2 p = Some 0.
Proof.
  unfold dir_entry, pte. intros Hwf Hp Hnew Hquiet Hdir Hpt Hclean.
  destruct (new_process_spec s0 p n s1 Hwf Hp Hnew Hquiet)
    as (pt' & Hrange & Hfree & Hwf1 & Hdir' & Hbound & Hent & Hlow).
  assert (pt' = pt) as -> by congruence.
  destruct (kill_process_spec s1 p pt Hwf1 Hp Hdir)
    as (s2 & Hkill & _ & _ & _ & Hpt0 & Hdir0 & Hfreed & Hall); [lia|].
  exists s2. split_and!; [done| |done].
  apply free_map_eq. intros a Ha.
  destruct (decide (a = pt)) as [->|Hapt]; [congruence|].
  unfold MAX_PROC, PAGE_SIZE, PTP_OFFSET, PAGE_COUNT in *.
  assert (Hmapped : forall j, 0 <= j < 256 ->
            rd (mem s1) (get_address pt j) = Some a -> a <> 0 ->
            rd (mem s2) a = Some 0 /\ rd (mem s0) a = Some 0).
  { intros j Hj Hja Hnz. split; [by apply (Hfreed j)|].
    destruct (Z.lt_ge_cases j (Z.of_nat (Z.to_nat n))) as [Hlt|Hge].
    - destruct (Hent j) as (e & He & _ & _ & Hzero); [lia|]. congruence.
    - rewrite Hclean in Hja by lia. congruence. }
  destruct (Hall a) as [Hsame|(_ & [?|[?|(Hnz & j & Hj & Hja)]])];
    [|done|lia|].
  - rewrite Hsame.
    destruct (Hlow a) as [?|[?|[?|(j & Hj & Hja)]]]; [lia|done|done|lia|].
    destruct (Hent j Hj) as (e & He & Herange & _ & _).
    assert (e = a) as -> by congruence.
    destruct (Hmapped j) as [H2 H0]; [lia|done|lia|]. congruence.
  - destruct (Hmapped j Hj Hja Hnz) as [H2 H0]. congruence.
Qed.

Lemma new_then_kill_restores_free_map_witness :
  let s1 := world_after [Np 0 2] in
  let s2 := world_after [Np 0 2; Kp 0] in
  kill_process 0 s1 = Ok (tt, s2) /\
  take 4 (free_map s1) = [1; 1; 1; 1] /\
  free_map s2 = free_map fresh /\
  dir_entry s2 0 = Some 0.
Proof.
  intros s1 s2.
  assert (Hp : 0 <= 0 < MAX_PROC) by (unfold MAX_PROC, PAGE_SIZE, PTP_OFFSET; lia).
  assert (Hnew : new_process 0 2 fresh = Ok (tt, s1)) by (vm_compute; reflexivity).
  assert (Hquiet : out s1 = out fresh) by (vm_compute; reflexivity).
  assert (Hdir : dir_entry s1 0 = Some 1) by (vm_compute; reflexivity).
  assert (Hclean : forall i, 0 <= i < PAGE_SIZE -> 2 <= i -> pte s1 1 i = Some 0).
  { apply clean_from_spec. vm_compute. reflexivity. }
  destruct (new_then_kill_restores_free_map fresh 0 2 s1 1 wf_fresh Hp Hnew Hquiet Hdir)
    as (s2' & Hkill & Hmap & Hdir0); [unfold PAGE_COUNT; lia|exact Hclean|].
  assert (Hs2 : kill_process 0 s1 = Ok (tt, s2)) by (vm_compute; reflexivity).
  assert (Heq : s2' = s2) by congruence.
  rewrite Heq in Hmap, Hdir0.
  split_and!; [exact Hs2|vm_compute; reflexivity|exact Hmap|exact Hdir0].
Defined.

(** * More on the allocator *)

(** X1.  In a well-formed world [allocate_page] always returns.  It
    takes the lowest index in [1..PAGE_COUNT] (the last one included)
    whose byte is 0, sets that one byte to 1 and returns the index; when
    none of these bytes is 0 it returns 0xff and changes nothing. *)
Theorem allocate_page_first_fit s :
  wf s ->
  (exists r, 1 <= r <= PAGE_COUNT /\ rd (mem s) r = Some 0 /\
             (forall j, 1 <= j < r -> rd (mem s) j <> Some 0) /\
             allocate_page s = Ok (r, World (wr (mem s) r 1) (out s)))
  \/ ((forall j, 1 <= j <= PAGE_COUNT -> rd (mem s) j <> Some 0) /\
      allocate_page s = Ok (Exhausted, s)).
Proof.
  intros Hwf.
  destruct (allocate_page_spec s Hwf) as [(r & Hr & Hrange & Hfree & Hlow)|[Hr Hnone]].
  - left. exists r. unfold PAGE_COUNT in *.
    split_and!; [lia|lia|done| |done]. intros j Hj. apply Hlow. lia.
  - by right.
Qed.

Lemma allocate_page_first_fit_witness :
  (exists r, 1 <= r <= PAGE_COUNT /\ rd (mem fresh) r = Some 0 /\
             (forall j, 1 <= j < r -> rd (mem fresh) j <> Some 0) /\
             allocate_page fresh = Ok (r, World (wr (mem fresh) r 1) (out fresh)))
  \/ ((forall j, 1 <= j <= PAGE_COUNT -> rd (mem fresh) j <> Some 0) /\
      allocate_page fresh = Ok (Exhausted, fresh)).
Proof. exact (allocate_page_first_fit fresh wf_fresh). Defined.

(** X2.  Two calls of [allocate_page] in a row never hand out the same
    page: when both find a page the second is above the first, and once
    a call has answered 0xff the next one does too. *)
Theorem allocate_page_twice s r1 s1 r2 s2 :
  wf s ->
  allocate_page s = Ok (r1, s1) -> allocate_page s1 = Ok (r2, s2) ->
  (r1 <> Exhausted -> r2 <> Exhausted -> r1 < r2) /\
  (r1 = Exhausted -> r2 = Exhausted /\ s2 = s).
Proof.
  unfold Exhausted. intros Hwf H1 H2.
  destruct (allocate_page_spec s Hwf) as [(r & Hr & Hrange & Hfree & Hlow)|[Hr Hnone]];
    rewrite Hr in H1; injection H1 as <- <-.
  - assert (Hwf1 : wf (World (wr (mem s) r 1) (out s)))
      by (apply wf_wr_byte; [done|lia]).
    unfold PAGE_COUNT in *. split; [|lia]. intros _ Hr2.
    destruct (allocate_page_spec _ Hwf1) as [(r' & Hr' & Hrange' & Hfree' & _)|[Hr' _]];
      rewrite Hr' in H2; injection H2 as <- <-; [|done].
    cbn [mem] in Hfree'.
    destruct (Z.lt_trichotomy r r') as [?|[<-|Hlt]]; [done| |].
    + rewrite wf_rd_wr in Hfree'; [done|done|unfold MEM_SIZE; lia].
    + rewrite rd_wr_ne in Hfree' by lia. exfalso. apply (Hlow r'); [lia|done].
  - split; [done|]. intros _. rewrite Hr in H2. by injection H2 as <- <-.
Qed.

Lemma allocate_page_twice_witness :
  let s1 := World (wr (mem fresh) 1 1) [] in
  let s2 := World (wr (mem s1) 2 1) [] in
  (1 <> Exhausted -> 2 <> Exhausted -> 1 < 2) /\
  (1 = Exhausted -> 2 = Exhausted /\ s2 = fresh).
Proof.
  intros s1 s2.
  apply (allocate_page_twice fresh 1 s1 2 s2 wf_fresh); vm_compute; reflexivity.
Defined.

Lemma world_eta s : World (mem s) (out s) = s.
Proof. by destruct s. Qed.

Lemma wr_wr m a v w : wr (wr m a v) a w = wr m a w.
Proof. apply list_insert_insert_eq. Qed.

Lemma wr_id m a v : 0 <= a -> rd m a = Some v -> wr m a v = m.
Proof.
  intros Ha. unfold rd, wr. rewrite decide_True by done. apply list_insert_id.
Qed.

(** X3.  Giving back the page [allocate_page] just returned restores
    the world exactly. *)
Theorem allocate_then_deallocate s r s1 :
  wf s -> allocate_page s = Ok (r, s1) -> r <> Exhausted ->
  deallocate_page r s1 = Ok (tt, s).
Proof.
  unfold Exhausted. intros Hwf H1 Hr1.
  destruct (allocate_page_spec s Hwf) as [(r' & Hr & Hrange & Hfree & Hlow)|[Hr Hnone]];
    rewrite Hr in H1; injection H1 as <- <-; [|done].
  unfold PAGE_COUNT in *. unfold deallocate_page.
  set (s1 := World (wr (mem s) r' 1) (out s)).
  assert (Hin : rd (mem s1) r' = Some 1)
    by (apply wf_rd_wr; [done|unfold MEM_SIZE; lia]).
  rewrite (store_byte_Ok _ 0 1 s1 Hin). unfold s1. cbn [mem out].
  change (0 mod 256) with 0. rewrite wr_wr, wr_id by (done || lia).
  by rewrite world_eta.
Qed.

Lemma allocate_then_deallocate_witness :
  deallocate_page 1 (World (wr (mem fresh) 1 1) []) = Ok (tt, fresh).
Proof.
  apply (allocate_then_deallocate fresh 1 _ wf_fresh);
    [vm_compute; reflexivity|unfold Exhausted; lia].
Defined.

(** X4.  A page that is freed while every lower page is in use is the
    next one [allocate_page] returns. *)
Theorem deallocate_then_allocate s r :
  wf s -> 1 <= r <= PAGE_COUNT ->
  (forall j, 1 <= j < r -> rd (mem s) j <> Some 0) ->
  let s1 := World (wr (mem s) r 0) (out s) in
  deallocate_page r s = Ok (tt, s1) /\
  allocate_page s1 = Ok (r, World (wr (mem s) r 1) (out s)).
Proof.
  intros Hwf Hr Hlow s1. unfold PAGE_COUNT in Hr.
  destruct (wf_rd s r Hwf) as [old Hold]; [unfold MEM_SIZE; lia|].
  assert (Hwf1 : wf s1) by (apply wf_wr_byte; [done|lia]).
  split.
  - unfold deallocate_page. by rewrite (store_byte_Ok _ 0 _ _ Hold).
  - destruct (allocate_page_spec s1 Hwf1)
      as [(r' & Hr' & Hrange' & Hfree' & Hlow')|[Hr' Hnone]].
    + unfold s1 in *. cbn [mem out] in *. rewrite Hr'.
      destruct (Z.lt_trichotomy r r') as [Hlt|[<-|Hgt]].
      * exfalso. apply (Hlow' r); [lia|].
        apply wf_rd_wr; [done|unfold MEM_SIZE; lia].
      * by rewrite wr_wr.
      * rewrite rd_wr_ne in Hfree' by lia. exfalso. apply (Hlow r'); [lia|done].
    + exfalso. apply (Hnone r); [unfold PAGE_COUNT; lia|].
      apply wf_rd_wr; [done|unfold MEM_SIZE; lia].
Qed.

Lemma deallocate_then_allocate_witness :
  let s := world_after [Np 0 2] in
  deallocate_page 2 s = Ok (tt, World (wr (mem s) 2 0) (out s)) /\
  allocate_page (World (wr (mem s) 2 0) (out s)) = Ok (2, World (wr (mem s) 2 1) (out s)).
Proof.
  intros s.
  assert (Hwf : wf s) by (apply wf_world_after; vm_compute; reflexivity).
  apply (deallocate_then_allocate s 2 Hwf); [unfold PAGE_COUNT; lia|].
  intros j Hj. assert (j = 1) as -> by lia. vm_compute. discriminate.
Defined.

(** * More on creating a process *)

(** One turn of the loop of [new_process] as an equation.  [L] is a
    level up to which every free-map byte is known to be in use. *)
Lemma new_process_loop_unfold p pt k i s L :
  wf s -> 1 <= pt -> 0 <= i -> pt + i <= L -> L <= PAGE_COUNT ->
  filled (mem s) L ->
  (filled (mem s) PAGE_COUNT /\
   new_process_loop (S k) p pt i s =
   Ok (tt, World (mem s) (out s ++ [OOM_data_page p])))
  \/ exists r sb,
      L < r <= PAGE_COUNT /\ rd (mem s) r = Some 0 /\
      get_address pt i = pt * 256 + i /\
      wf sb /\ out sb = out s /\ filled (mem sb) r /\
      rd (mem sb) r = Some 1 /\ rd (mem sb) (get_address pt i) = Some r /\
      (forall a, a <> r -> a <> get_address pt i -> rd (mem sb) a = rd (mem s) a) /\
      new_process_loop (S k) p pt i s = new_process_loop k p pt (i + 1) sb.
Proof.
  unfold PAGE_COUNT. intros Hwf Hpt Hi HL HL64 Hfill. cbn [new_process_loop].
  destruct (allocate_page_spec s Hwf) as [(r & Hr & Hrange & Hfree & Hlow)|[Hr Hnone]];
    rewrite (bind_Ok _ _ _ _ _ Hr); unfold PAGE_COUNT in *.
  { right.
    assert (Hgt : L < r).
    { destruct (Z.lt_ge_cases L r) as [|Hge]; [done|].
      exfalso. apply (Hfill r); [lia|done]. }
    assert (Hga : get_address pt i = pt * 256 + i) by (apply get_address_add; lia).
    destruct (Z.eqb_spec r 255) as [|_]; [lia|].
    set (sa := World (wr (mem s) r 1) (out s)).
    assert (Hwfa : wf sa) by (apply wf_wr_byte; [done|lia]).
    destruct (wf_rd sa (get_address pt i) Hwfa) as [old Hold];
      [unfold MEM_SIZE; lia|].
    rewrite (bind_Ok _ _ _ _ _ (store_byte_Ok _ r _ _ Hold)).
    rewrite Z.mod_small by lia.
    set (sb := World (wr (mem sa) (get_address pt i) r) (out sa)).
    exists r, sb.
    assert (Hsa : forall a, a <> r -> rd (mem sa) a = rd (mem s) a).
    { intros a Ha. apply rd_wr_ne; [lia|done]. }
    assert (Hsb : forall a, a <> get_address pt i -> rd (mem sb) a = rd (mem sa) a).
    { intros a Ha. apply rd_wr_ne; [lia|done]. }
    assert (Hsar : rd (mem sa) r = Some 1)
      by (apply wf_rd_wr; [done|unfold MEM_SIZE; lia]).
    assert (Hsbr : rd (mem sb) r = Some 1) by (rewrite Hsb by lia; done).
    split_and!; try done; try lia.
    - apply wf_wr_byte; [done|lia].
    - intros j Hj. rewrite Hsb by lia.
      destruct (decide (j = r)) as [->|]; [by rewrite Hsar|].
      rewrite Hsa by done. apply Hlow. lia.
    - apply wf_rd_wr; [done|unfold MEM_SIZE; lia].
    - intros a Har Hag. by rewrite Hsb, Hsa. }
  left. split; [done|]. change (255 =? 255) with true. done.
Qed.

(** The loop always returns, having printed at most its one line. *)
Lemma new_process_loop_total p pt :
  1 <= pt ->
  forall k i s L,
    wf s -> 0 <= i -> pt + i <= L -> L <= PAGE_COUNT -> filled (mem s) L ->
    exists s1, new_process_loop k p pt i s = Ok (tt, s1) /\ wf s1 /\
               (out s1 = out s \/ out s1 = out s ++ [OOM_data_page p]).
Proof.
  intros Hpt. induction k as [|k IH]; intros i s L Hwf Hi HL HL64 Hfill.
  { exists s. split_and!; [done|done|by left]. }
  destruct (new_process_loop_unfold p pt k i s L Hwf Hpt Hi HL HL64 Hfill)
    as [[_ Heq]|(r & sb & Hr & _ & _ & Hwfb & Hout & Hfillb & _ & _ & _ & Heq)];
    rewrite Heq.
  - eexists. split_and!; [done|by apply wf_out|by right].
  - destruct (IH (i + 1) sb r Hwfb) as (s1 & Hrun & Hwf1 & Hprint);
      [lia|lia|lia|done|].
    exists s1. rewrite <- Hout. by split_and!.
Qed.

(** When the loop prints nothing, the pages it recorded were free
    before, are in use after, and increase with the index. *)
Lemma new_process_loop_increasing p pt :
  1 <= pt ->
  forall k i s s1 L,
    wf s -> 0 <= i -> pt + i <= L -> L <= PAGE_COUNT -> filled (mem s) L ->
    new_process_loop k p pt i s = Ok (tt, s1) -> out s1 = out s ->
    forall j, i <= j < i + Z.of_nat k ->
      exists e, rd (mem s1) (get_address pt j) = Some e /\
                L < e <= PAGE_COUNT /\
                rd (mem s) e = Some 0 /\ rd (mem s1) e = Some 1 /\
                forall j' e', j < j' < i + Z.of_nat k ->
                              rd (mem s1) (get_address pt j') = Some e' -> e < e'.
Proof.
  intros Hpt. induction k as [|k IH];
    intros i s s1 L Hwf Hi HL HL64 Hfill Hrun Hquiet j Hj; [exfalso; lia|].
  destruct (new_process_loop_unfold p pt k i s L Hwf Hpt Hi HL HL64 Hfill)
    as [[_ Heq]|(r & sb & Hr & Hfree & Hga & Hwfb & Hout & Hfillb & Hsbr & Hsbe & Hsb & Heq)];
    rewrite Heq in Hrun.
  { injection Hrun as <-. cbn [out] in Hquiet. by apply snoc_neq in Hquiet. }
  unfold PAGE_COUNT in *.
  assert (Hfillb' : filled (mem sb) (pt + (i + 1))).
  { intros a Ha. apply Hfillb. lia. }
  destruct (new_process_loop_frame p pt Hpt k (i + 1) sb s1 Hwfb)
    as (_ & Hhigh & Hlow); [lia|unfold PAGE_COUNT; lia|done|done|].
  assert (Hlater : forall j', i + 1 <= j' < i + 1 + Z.of_nat k ->
            exists e, rd (mem s1) (get_address pt j') = Some e /\
                      r < e <= 64 /\ rd (mem sb) e = Some 0 /\
                      rd (mem s1) e = Some 1 /\
                      forall j'' e', j' < j'' < i + 1 + Z.of_nat k ->
                        rd (mem s1) (get_address pt j'') = Some e' -> e < e').
  { intros j' Hj'. apply (IH (i + 1) sb s1 r); try done; try lia. congruence. }
  destruct (decide (j = i)) as [->|Hji].
  - exists r. split_and!; [|lia|lia|done| |].
    + rewrite Hhigh; [done|lia|]. intros j' Hj' Hj64. unfold PAGE_COUNT in Hj64.
      rewrite Hga, get_address_add by lia. lia.
    + destruct (Hlow r) as [->|(_ & Hzero & _)]; [lia|done|congruence].
    + intros j' e' Hj' He'.
      destruct (Hlater j') as (e & He & Hre & _); [lia|].
      assert (e' = e) as -> by congruence. lia.
  - destruct (Hlater j) as (e & He & Hre & Hzero & Hone & Horder); [lia|].
    exists e. split_and!; [done|lia|lia| |done|].
    + rewrite <- Hzero. symmetry. apply Hsb; [lia|lia].
    + intros j' e' Hj'. apply Horder. lia.
Qed.

(** [new_process] as an equation, for a process id inside the pointer
    table. *)
Lemma new_process_unfold s p n :
  wf s -> 0 <= p < MAX_PROC ->
  (filled (mem s) PAGE_COUNT /\
   new_process p n s = Ok (tt, World (mem s) (out s ++ [OOM_page_table p])))
  \/ exists pt sb,
      1 <= pt <= PAGE_COUNT /\ rd (mem s) pt = Some 0 /\
      wf sb /\ out sb = out s /\ filled (mem sb) pt /\
      rd (mem sb) (PTP_OFFSET + p) = Some pt /\
      (forall a, a <> pt -> a <> PTP_OFFSET + p -> rd (mem sb) a = rd (mem s) a) /\
      (pt <> PTP_OFFSET + p -> rd (mem sb) pt = Some 1) /\
      new_process p n s = new_process_loop (Z.to_nat n) p pt 0 sb.
Proof.
  unfold MAX_PROC, PAGE_SIZE, PTP_OFFSET. intros Hwf Hp. unfold new_process.
  destruct (allocate_page_spec s Hwf) as [(pt & Hr & Hrange & Hfree & Hlow)|[Hr Hnone]];
    rewrite (bind_Ok _ _ _ _ _ Hr); unfold PAGE_COUNT, PTP_OFFSET in *.
  2:{ left. split; [done|]. change (255 =? 255) with true. done. }
  right. destruct (Z.eqb_spec pt 255) as [|_]; [lia|].
  set (sa := World (wr (mem s) pt 1) (out s)).
  assert (Hwfa : wf sa) by (apply wf_wr_byte; [done|lia]).
  destruct (wf_rd sa (64 + p) Hwfa) as [old Hold]; [unfold MEM_SIZE; lia|].
  rewrite (bind_Ok _ _ _ _ _ (store_byte_Ok _ pt _ _ Hold)).
  rewrite Z.mod_small by lia.
  set (sb := World (wr (mem sa) (64 + p) pt) (out sa)).
  assert (Hsa : forall a, a <> pt -> rd (mem sa) a = rd (mem s) a).
  { intros a Ha. apply rd_wr_ne; [lia|done]. }
  assert (Hsb : forall a, a <> 64 + p -> rd (mem sb) a = rd (mem sa) a).
  { intros a Ha. apply rd_wr_ne; [lia|done]. }
  assert (Hsbd : rd (mem sb) (64 + p) = Some pt)
    by (apply wf_rd_wr; [done|unfold MEM_SIZE; lia]).
  assert (Hsapt : rd (mem sa) pt = Some 1)
    by (apply wf_rd_wr; [done|unfold MEM_SIZE; lia]).
  exists pt, sb. split_and!; try done; try lia.
  - apply wf_wr_byte; [done|lia].
  - intros j Hj. destruct (decide (j = 64 + p)) as [->|];
      [rewrite Hsbd; intros [= ?]; lia|].
    rewrite Hsb by done. destruct (decide (j = pt)) as [->|]; [by rewrite Hsapt|].
    rewrite Hsa by done. apply Hlow. lia.
  - intros a Ha Hd. by rewrite Hsb, Hsa.
  - intros Hne. by rewrite Hsb.
Qed.

(** What a [new_process] that prints nothing has done. *)
Lemma new_process_quiet s p n s1 :
  wf s -> 0 <= p < MAX_PROC ->
  new_process p n s = Ok (tt, s1) -> out s1 = out s ->
  exists pt,
    1 <= pt <= PAGE_COUNT /\ rd (mem s) pt = Some 0 /\
    rd (mem s1) (PTP_OFFSET + p) = Some pt /\ rd (mem s1) pt <> Some 0 /\
    pt + Z.of_nat (Z.to_nat n) <= PAGE_COUNT /\
    wf s1 /\
    (forall a, 256 <= a ->
               (forall j, 0 <= j < Z.of_nat (Z.to_nat n) -> a <> get_address pt j) ->
               rd (mem s1) a = rd (mem s) a) /\
    (forall a, a < 256 ->
               rd (mem s1) a = rd (mem s) a \/ rd (mem s) a = Some 0 \/
               a = PTP_OFFSET + p) /\
    forall j, 0 <= j < Z.of_nat (Z.to_nat n) ->
      exists e, rd (mem s1) (get_address pt j) = Some e /\
                pt < e <= PAGE_COUNT /\
                rd (mem s) e = Some 0 /\ rd (mem s1) e = Some 1 /\
                forall j' e', j < j' < Z.of_nat (Z.to_nat n) ->
                              rd (mem s1) (get_address pt j') = Some e' -> e < e'.
Proof.
  intros Hwf Hp Hrun Hquiet.
  destruct (new_process_unfold s p n Hwf Hp)
    as [[_ Heq]|(pt & sb & Hpt & Hfree & Hwfb & Hout & Hfillb & Hdir & Hsb & Hsbpt & Heq)];
    rewrite Heq in Hrun.
  { injection Hrun as <-. cbn [out] in Hquiet. by apply snoc_neq in Hquiet. }
  assert (Hquiet' : out s1 = out sb) by congruence.
  assert (Hfill0 : filled (mem sb) (pt + 0)) by (by rewrite Z.add_0_r).
  destruct (new_process_loop_frame p pt (proj1 Hpt) (Z.to_nat n) 0 sb s1 Hwfb)
    as (Hwf1 & Hhigh & Hlow); [lia|lia|done|done|].
  destruct (new_process_loop_spec p pt (proj1 Hpt) (Z.to_nat n) 0 sb s1 Hwfb)
    as (Hbound & _ & _); [lia|lia|done|done|done|].
  unfold MAX_PROC, PAGE_SIZE, PTP_OFFSET, PAGE_COUNT in *.
  exists pt. split_and!; [lia|lia|done| | |lia|done| | |].
  - destruct (Hlow (64 + p)) as [->|(_ & Hzero & _)]; [lia|done|].
    rewrite Hdir in Hzero. injection Hzero as ?. lia.
  - destruct (decide (pt = 64 + p)) as [Heqp|Hne].
    + destruct (Hlow pt) as [->|(_ & _ & ->)]; [lia| |done].
      rewrite Heqp at 1. rewrite Hdir. intros [= ?]. lia.
    + destruct (Hlow pt) as [->|(_ & _ & ->)]; [lia| |done].
      by rewrite Hsbpt.
  - intros a Ha Hne. rewrite Hhigh; [|done|intros j Hj _; apply Hne; lia].
    apply Hsb; lia.
  - intros a Ha. destruct (decide (a = 64 + p)) as [|Hd]; [by auto|].
    destruct (decide (a = pt)) as [->|Hapt]; [by auto|].
    destruct (Hlow a Ha) as [->|(_ & Hzero & _)].
    + left. by apply Hsb.
    + right. left. rewrite <- Hzero. symmetry. by apply Hsb.
  - intros j Hj.
    assert (H64 : pt <= PAGE_COUNT) by (unfold PAGE_COUNT; lia).
    destruct (new_process_loop_increasing p pt (proj1 Hpt) (Z.to_nat n) 0 sb s1 pt
                Hwfb (Z.le_refl 0) (Z.eq_le_incl _ _ (Z.add_0_r pt)) H64 Hfillb
                Hrun Hquiet' j Hj)
      as (e & He & Hrange & Hzero & Hone & Horder).
    unfold PAGE_COUNT in Hrange.
    exists e. split_and!; [done|lia|lia| |done|].
    + rewrite <- Hzero. symmetry. apply Hsb; [lia|].
      intros ->. rewrite Hdir in Hzero. injection Hzero as ?. lia.
    + intros j' e' Hj'. apply Horder. lia.
Qed.

(** X5.  For a process id inside the pointer table [new_process]
    returns for every page count, negative and huge ones included: it
    never reads or writes outside the array.  It prints nothing or one
    out-of-memory line. *)
Theorem new_process_returns s p n :
  wf s -> 0 <= p < MAX_PROC ->
  exists s1,
    new_process p n s = Ok (tt, s1) /\ wf s1 /\
    (out s1 = out s \/ out s1 = out s ++ [OOM_page_table p] \/
     out s1 = out s ++ [OOM_data_page p]).
Proof.
  intros Hwf Hp.
  destruct (new_process_unfold s p n Hwf Hp)
    as [[_ Heq]|(pt & sb & Hpt & _ & Hwfb & Hout & Hfillb & _ & _ & _ & Heq)];
    rewrite Heq.
  - eexists. split_and!; [done|by apply wf_out|]. right. by left.
  - destruct (new_process_loop_total p pt (proj1 Hpt) (Z.to_nat n) 0 sb pt Hwfb)
      as (s1 & Hrun & Hwf1 & Hprint); [lia|lia|lia|done|].
    exists s1. rewrite <- Hout. split_and!; [done|done|].
    destruct Hprint; [by left|right; by right].
Qed.

Lemma new_process_returns_witness :
  exists s1,
    new_process 7 1000000 fresh = Ok (tt, s1) /\ wf s1 /\
    (out s1 = out fresh \/ out s1 = out fresh ++ [OOM_page_table 7] \/
     out s1 = out fresh ++ [OOM_data_page 7]).
Proof.
  apply (new_process_returns fresh 7 1000000 wf_fresh).
  unfold MAX_PROC, PAGE_SIZE, PTP_OFFSET. lia.
Defined.

(** X6.  A [new_process] that prints nothing has asked for at most
    [PAGE_COUNT - 1] pages.  Its page table and the pages in entries
    [0..page_count-1] were free before and are in use after, and the
    entries increase strictly with the index, starting above the page
    table: no page is handed out twice. *)
Theorem new_process_pages s p n s1 :
  wf s -> 0 <= p < MAX_PROC ->
  new_process p n s = Ok (tt, s1) -> out s1 = out s ->
  exists pt,
    dir_entry s1 p = Some pt /\ 1 <= pt <= PAGE_COUNT /\
    rd (mem s) pt = Some 0 /\ rd (mem s1) pt <> Some 0 /\
    n <= PAGE_COUNT - pt /\
    forall j, 0 <= j < n ->
      exists e, pte s1 pt j = Some e /\ pt < e <= PAGE_COUNT /\
                rd (mem s) e = Some 0 /\ rd (mem s1) e = Some 1 /\
                forall j' e', j < j' < n -> pte s1 pt j' = Some e' -> e < e'.
Proof.
  intros Hwf Hp Hrun Hquiet. unfold dir_entry, pte.
  destruct (new_process_quiet s p n s1 Hwf Hp Hrun Hquiet)
    as (pt & Hpt & Hfree & Hdir & Hused & Hbound & _ & _ & _ & Hent).
  exists pt. split_and!; [done|lia|lia|done|done|lia|].
  intros j Hj. destruct (Hent j) as (e & He & Hrange & Hzero & Hone & Horder); [lia|].
  exists e. split_and!; [done|lia|lia|done|done|].
  intros j' e' Hj'. apply Horder. lia.
Qed.

Lemma new_process_pages_witness :
  let s1 := world_after [Np 3 2] in
  exists pt,
    dir_entry s1 3 = Some pt /\ 1 <= pt <= PAGE_COUNT /\
    rd (mem fresh) pt = Some 0 /\ rd (mem s1) pt <> Some 0 /\
    2 <= PAGE_COUNT - pt /\
    forall j, 0 <= j < 2 ->
      exists e, pte s1 pt j = Some e /\ pt < e <= PAGE_COUNT /\
                rd (mem fresh) e = Some 0 /\ rd (mem s1) e = Some 1 /\
                forall j' e', j < j' < 2 -> pte s1 pt j' = Some e' -> e < e'.
Proof.
  intros s1. apply (new_process_pages fresh 3 2 s1 wf_fresh).
  - unfold MAX_PROC, PAGE_SIZE, PTP_OFFSET. lia.
  - vm_compute. reflexivity.
  - vm_compute. reflexivity.
Defined.

(** X7.  Two [new_process] calls in a row that print nothing use
    disjoint pages: the two page tables differ, no page of the first
    process is the page table or a data page of the second, the page
    table of the first is untouched by the second call, and so is its
    pointer when the process ids differ. *)
Theorem new_process_twice_disjoint s p n s1 q m s2 :
  wf s -> 0 <= p < MAX_PROC -> 0 <= q < MAX_PROC ->
  new_process p n s = Ok (tt, s1) -> out s1 = out s ->
  new_process q m s1 = Ok (tt, s2) -> out s2 = out s1 ->
  exists ptp ptq,
    dir_entry s1 p = Some ptp /\ dir_entry s2 q = Some ptq /\ ptp <> ptq /\
    (forall i e, 0 <= i < n -> pte s1 ptp i = Some e ->
       e <> ptq /\
       forall j e', 0 <= j < m -> pte s2 ptq j = Some e' -> e' <> e /\ e' <> ptp) /\
    (forall i, 0 <= i < PAGE_SIZE -> pte s2 ptp i = pte s1 ptp i) /\
    (p <> q -> dir_entry s2 p = Some ptp).
Proof.
  intros Hwf Hp Hq Hrun1 Hquiet1 Hrun2 Hquiet2. unfold dir_entry, pte.
  destruct (new_process_quiet s p n s1 Hwf Hp Hrun1 Hquiet1)
    as (ptp & Hptp & _ & Hdirp & Husedp & _ & Hwf1 & _ & _ & Hentp).
  destruct (new_process_quiet s1 q m s2 Hwf1 Hq Hrun2 Hquiet2)
    as (ptq & Hptq & Hfreeq & Hdirq & _ & Hboundq & _ & Hhigh & Hlow & Hentq).
  unfold MAX_PROC, PAGE_SIZE, PTP_OFFSET, PAGE_COUNT in *.
  assert (Hne : ptp <> ptq) by (intros ->; done).
  exists ptp, ptq. split_and!; [done|done|done| | |].
  - intros i e Hi He.
    destruct (Hentp i) as (e0 & He0 & _ & _ & Hone & _); [lia|].
    assert (e0 = e) as -> by congruence.
    split; [intros ->; congruence|].
    intros j e' Hj He'.
    destruct (Hentq j) as (e1 & He1 & _ & Hzero & _); [lia|].
    assert (e1 = e') as -> by congruence.
    split; intros ->; congruence.
  - intros i Hi. apply Hhigh.
    + rewrite get_address_add by done. lia.
    + intros j Hj. rewrite !get_address_add by lia. lia.
  - intros Hpq. destruct (Hlow (64 + p)) as [->|[Hzero|?]]; [lia|done| |lia].
    rewrite Hdirp in Hzero. injection Hzero as ?. lia.
Qed.

Lemma new_process_twice_disjoint_witness :
  let s1 := world_after [Np 0 2] in
  let s2 := world_after [Np 0 2; Np 1 3] in
  exists ptp ptq,
    dir_entry s1 0 = Some ptp /\ dir_entry s2 1 = Some ptq /\ ptp <> ptq /\
    (forall i e, 0 <= i < 2 -> pte s1 ptp i = Some e ->
       e <> ptq /\
       forall j e', 0 <= j < 3 -> pte s2 ptq j = Some e' -> e' <> e /\ e' <> ptp) /\
    (forall i, 0 <= i < PAGE_SIZE -> pte s2 ptp i = pte s1 ptp i) /\
    (0 <> 1 -> dir_entry s2 0 = Some ptp).
Proof.
  intros s1 s2.
  apply (new_process_twice_disjoint fresh 0 2 s1 1 3 s2 wf_fresh);
    try (unfold MAX_PROC, PAGE_SIZE, PTP_OFFSET; lia);
    vm_compute; reflexivity.
Defined.

(** * More on killing a process *)

(** X8.  [kill_process] on a process whose page table is one of the
    pages [1..PAGE_COUNT-1] returns and prints nothing.  It clears the
    pointer, frees the page table and frees every page named by a
    nonzero entry at any of the 256 indices of the table.  No byte of
    memory is set to anything but 0: it never marks a page as in use. *)
Theorem kill_process_frees s p pt :
  wf s -> 0 <= p < MAX_PROC -> dir_entry s p = Some pt -> 1 <= pt < PAGE_COUNT ->
  exists t,
    kill_process p s = Ok (tt, t) /\ out t = out s /\
    dir_entry t p = Some 0 /\ rd (mem t) pt = Some 0 /\
    (forall j e, 0 <= j < PAGE_SIZE -> pte s pt j = Some e -> e <> 0 ->
                 rd (mem t) e = Some 0) /\
    (forall a, rd (mem t) a = rd (mem s) a \/ rd (mem t) a = Some 0).
Proof.
  unfold dir_entry, pte. intros Hwf Hp Hdir Hpt.
  destruct (kill_process_spec s p pt Hwf Hp Hdir Hpt)
    as (t & Ht & _ & Hout & _ & Hpt0 & Hdir0 & Hfreed & Hall).
  exists t. split_and!; try done.
  intros a. destruct (Hall a) as [?|[? _]]; by auto.
Qed.

Lemma kill_process_frees_witness :
  let s := world_after [Np 0 2] in
  exists t,
    kill_process 0 s = Ok (tt, t) /\ out t = out s /\
    dir_entry t 0 = Some 0 /\ rd (mem t) 1 = Some 0 /\
    (forall j e, 0 <= j < PAGE_SIZE -> pte s 1 j = Some e -> e <> 0 ->
                 rd (mem t) e = Some 0) /\
    (forall a, rd (mem t) a = rd (mem s) a \/ rd (mem t) a = Some 0).
Proof.
  intros s.
  assert (Hwf : wf s) by (apply wf_world_after; vm_compute; reflexivity).
  apply (kill_process_frees s 0 1 Hwf).
  - unfold MAX_PROC, PAGE_SIZE, PTP_OFFSET. lia.
  - vm_compute. reflexivity.
  - unfold PAGE_COUNT. lia.
Defined.

(** The loop of [kill_process] stays inside the array whenever the page
    table pointer names one of the pages, page 0 included. *)
Lemma kill_process_loop_total pt :
  0 <= pt < PAGE_COUNT ->
  forall k i s,
    wf s -> 0 <= i -> i + Z.of_nat k <= 256 ->
    exists t, kill_process_loop k pt i s = Ok (tt, t) /\ wf t.
Proof.
  unfold PAGE_COUNT. intros Hpt.
  induction k as [|k IH]; intros i s Hwf Hi Hsum; [by exists s|].
  assert (Hga : get_address pt i = pt * 256 + i) by (apply get_address_add; lia).
  destruct (wf_rd s (get_address pt i) Hwf) as [b Hb]; [unfold MEM_SIZE; lia|].
  pose proof (wf_byte _ _ _ Hwf Hb) as Hbyte.
  cbn [kill_process_loop]. rewrite (bind_Ok _ _ _ _ _ (load_byte_Ok _ _ _ Hb)).
  destruct (negb (b =? 0)).
  - destruct (wf_rd s b Hwf) as [old Hold]; [unfold MEM_SIZE; lia|].
    unfold deallocate_page.
    rewrite (bind_Ok _ _ _ _ _ (store_byte_Ok _ 0 _ _ Hold)).
    apply IH; [by apply wf_wr|lia|lia].
  - unfold ret at 1. unfold bind at 1. apply IH; [done|lia|lia].
Qed.

(** X9.  For a process id inside the pointer table, [kill_process]
    returns exactly when the pointer of the process is below
    [PAGE_COUNT] (0 included); with a larger pointer its first table
    read is outside the array. *)
Theorem kill_process_returns_iff s p pt :
  wf s -> 0 <= p < MAX_PROC -> dir_entry s p = Some pt ->
  ((exists t, kill_process p s = Ok (tt, t)) <-> pt < PAGE_COUNT) /\
  (PAGE_COUNT <= pt -> kill_process p s = OutOfBounds).
Proof.
  unfold dir_entry. intros Hwf Hp Hdir.
  pose proof (wf_byte _ _ _ Hwf Hdir) as Hbyte.
  assert (Hbad : PAGE_COUNT <= pt -> kill_process p s = OutOfBounds)
    by (by apply kill_process_beyond).
  split; [|done]. split.
  - intros [t Ht]. destruct (Z.lt_ge_cases pt PAGE_COUNT) as [|Hge]; [done|].
    rewrite Hbad in Ht by done. discriminate.
  - intros Hlt. unfold kill_process.
    unfold MAX_PROC, PAGE_SIZE, PTP_OFFSET in *. rewrite (Z.add_comm p 64).
    rewrite (bind_Ok _ _ _ _ _ (load_byte_Ok _ _ _ Hdir)).
    rewrite (bind_Ok _ _ _ _ _ (store_byte_Ok _ 0 _ _ Hdir)).
    set (s1 := World _ _).
    assert (Hwf1 : wf s1) by apply (wf_wr s (64 + p) 0 (out s) Hwf).
    destruct (kill_process_loop_total pt (conj (proj1 Hbyte) Hlt) 256 0 s1 Hwf1)
      as (s2 & Hloop & Hwf2); [lia|lia|].
    rewrite (bind_Ok _ _ _ _ _ Hloop).
    destruct (wf_rd s2 pt Hwf2) as [old Hold];
      [unfold MEM_SIZE, PAGE_COUNT in *; lia|].
    unfold deallocate_page. rewrite (store_byte_Ok _ 0 _ _ Hold). eauto.
Qed.

Lemma kill_process_returns_iff_witness :
  let s := world_after [Np 1 62; Np 2 0] in
  dir_entry s 2 = Some PAGE_COUNT /\ kill_process 2 s = OutOfBounds.
Proof.
  intros s.
  assert (Hwf : wf s) by (apply wf_world_after; vm_compute; reflexivity).
  assert (Hp : 0 <= 2 < MAX_PROC) by (unfold MAX_PROC, PAGE_SIZE, PTP_OFFSET; lia).
  assert (Hdir : dir_entry s 2 = Some PAGE_COUNT) by (vm_compute; reflexivity).
  split; [exact Hdir|].
  exact (proj2 (kill_process_returns_iff s 2 PAGE_COUNT Hwf Hp Hdir) (Z.le_refl _)).
Defined.

(** * More on translation, store and load *)

Lemma get_address_byte e va :
  0 <= e -> get_address e (Z.land va 255) = e * PAGE_SIZE + va mod PAGE_SIZE.
Proof.
  intros He. rewrite get_address_add by apply land_255_bounds.
  change 255 with (Z.ones 8). rewrite Z.land_ones by lia. done.
Qed.

(** X10.  The address [get_physical_addr] returns is the page-table
    entry times [PAGE_SIZE] plus the virtual address modulo
    [PAGE_SIZE], for every [int] virtual address: the offset within the
    page is kept. *)
Theorem get_physical_addr_offset s p va a s' :
  wf s -> get_physical_addr p va s = Ok (a, s') ->
  exists pt e,
    dir_entry s p = Some pt /\ pte s pt (Z.shiftr va PAGE_SHIFT) = Some e /\
    a = e * PAGE_SIZE + va mod PAGE_SIZE /\
    a mod PAGE_SIZE = va mod PAGE_SIZE /\ a / PAGE_SIZE = e.
Proof.
  intros Hwf (_ & pt & e & Hpt & He & ->)%get_physical_addr_inv.
  pose proof (wf_byte _ _ _ Hwf He) as Hbyte.
  exists pt, e. rewrite get_address_byte by lia. unfold PAGE_SIZE.
  pose proof (Z.mod_pos_bound va 256 ltac:(lia)) as Hoff.
  split_and!; try done.
  - rewrite Z.add_comm, Z.mod_add by lia. apply Z.mod_small. lia.
  - rewrite Z.add_comm, Z.div_add by lia. rewrite Z.div_small by lia. lia.
Qed.

Lemma get_physical_addr_offset_witness :
  let s := world_after [Np 0 2] in
  exists pt e,
    dir_entry s 0 = Some pt /\ pte s pt (Z.shiftr 300 PAGE_SHIFT) = Some e /\
    812 = e * PAGE_SIZE + 300 mod PAGE_SIZE /\
    812 mod PAGE_SIZE = 300 mod PAGE_SIZE /\ 812 / PAGE_SIZE = e.
Proof.
  intros s.
  assert (Hwf : wf s) by (apply wf_world_after; vm_compute; reflexivity).
  apply (get_physical_addr_offset s 0 300 812 s Hwf). vm_compute. reflexivity.
Defined.

(** X11.  [store_value] and [load_value] stay inside the array exactly
    when the page-table entry they are translated through is below
    [PAGE_COUNT]; through a larger entry both leave the array. *)
Theorem store_load_bounds s p va v pt e :
  wf s -> dir_entry s p = Some pt -> pte s pt (Z.shiftr va PAGE_SHIFT) = Some e ->
  (e < PAGE_COUNT ->
   (exists s', store_value p va v s = Ok (tt, s')) /\
   (exists s', load_value p va s = Ok (tt, s'))) /\
  (PAGE_COUNT <= e ->
   store_value p va v s = OutOfBounds /\ load_value p va s = OutOfBounds).
Proof.
  unfold dir_entry, pte. intros Hwf Hpt He.
  pose proof (wf_byte _ _ _ Hwf He) as Hbyte.
  pose proof (get_physical_addr_Ok p va s pt e Hpt He) as Htr.
  pose proof (land_255_bounds va) as Hoff.
  assert (Ha : get_address e (Z.land va 255) = e * 256 + Z.land va 255)
    by (by apply get_address_add).
  unfold store_value, load_value. rewrite !(bind_Ok _ _ _ _ _ Htr).
  unfold PAGE_COUNT. split.
  - intros Hlt.
    destruct (wf_rd s (get_address e (Z.land va 255)) Hwf) as [b Hb];
      [unfold MEM_SIZE; lia|].
    rewrite (bind_Ok _ _ _ _ _ (store_byte_Ok _ v _ _ Hb)).
    rewrite (bind_Ok _ _ _ _ _ (load_byte_Ok _ _ _ Hb)).
    unfold print. eauto.
  - intros Hge.
    assert (Hnone : rd (mem s) (get_address e (Z.land va 255)) = None).
    { destruct (rd (mem s) (get_address e (Z.land va 255))) as [b|] eqn:Hb; [|done].
      apply (wf_bounds _ _ _ Hwf) in Hb. unfold MEM_SIZE in Hb. lia. }
    unfold bind, store_byte, load_byte. by rewrite Hnone.
Qed.

Lemma store_load_bounds_witness :
  let s := world_after [Np 1 63] in
  pte s 1 62 = Some PAGE_COUNT /\
  store_value 1 15872 9 s = OutOfBounds /\ load_value 1 15872 s = OutOfBounds.
Proof.
  intros s.
  assert (Hwf : wf s) by (apply wf_world_after; vm_compute; reflexivity).
  assert (Hdir : dir_entry s 1 = Some 1) by (vm_compute; reflexivity).
  assert (He : pte s 1 (Z.shiftr 15872 PAGE_SHIFT) = Some PAGE_COUNT)
    by (vm_compute; reflexivity).
  split; [exact He|].
  exact (proj2 (store_load_bounds s 1 15872 9 1 PAGE_COUNT Hwf Hdir He) (Z.le_refl _)).
Defined.

(** X12.  [store_value] writes one byte and nothing else: the byte at
    the translated address becomes the value modulo 256, every other
    byte of memory is as before, and the one line it prints shows the
    value as given. *)
Theorem store_value_writes_one_byte s p va v s' :
  store_value p va v s = Ok (tt, s') ->
  exists a,
    get_physical_addr p va s = Ok (a, s) /\
    rd (mem s') a = Some (v mod 256) /\
    (forall a', a' <> a -> rd (mem s') a' = rd (mem s) a') /\
    length (mem s') = length (mem s) /\
    out s' = out s ++ [Store_line p va a v].
Proof.
  intros (a & Ha & [old Hold] & ->)%store_value_inv.
  pose proof (rd_Some_bounds _ _ _ Hold) as Hbounds.
  exists a. cbn [mem out]. split_and!; try done.
  - by apply rd_wr_eq.
  - intros a' Hne. apply rd_wr_ne; [lia|done].
  - apply length_wr.
Qed.

Lemma store_value_writes_one_byte_witness :
  let s := world_after [Np 0 2] in
  let s' := world_after [Np 0 2; Sb 0 1 300] in
  exists a,
    get_physical_addr 0 1 s = Ok (a, s) /\
    rd (mem s') a = Some (300 mod 256) /\
    (forall a', a' <> a -> rd (mem s') a' = rd (mem s) a') /\
    length (mem s') = length (mem s) /\
    out s' = out s ++ [Store_line 0 1 a 300].
Proof.
  intros s s'. apply (store_value_writes_one_byte s 0 1 300 s').
  vm_compute. reflexivity.
Defined.

(** * The printing routines *)

Lemma seqZ_succ i k : seqZ i (Z.of_nat (S k)) = i :: seqZ (i + 1) (Z.of_nat k).
Proof.
  rewrite seqZ_cons by lia. f_equal. f_equal; lia.
Qed.

Lemma print_page_free_map_loop_spec s :
  wf s ->
  forall k i,
    0 <= i -> i + Z.of_nat k <= MEM_SIZE ->
    print_page_free_map_loop k i s =
    Ok (concat (map (fun j => glyph s j ::
                              if Z.rem (j + 1) 16 =? 0 then [newline] else [])
                    (seqZ i (Z.of_nat k))), s).
Proof.
  intros Hwf. induction k as [|k IH]; intros i Hi Hsum; [done|].
  rewrite seqZ_succ. cbn [print_page_free_map_loop map concat].
  rewrite get_address_0.
  destruct (wf_rd s i Hwf) as [b Hb]; [lia|].
  rewrite (bind_Ok _ _ _ _ _ (load_byte_Ok _ _ _ Hb)).
  rewrite (bind_Ok _ _ _ _ _ (IH (i + 1) ltac:(lia) ltac:(lia))).
  unfold ret, glyph. rewrite Hb.
  by destruct (Z.eqb_spec b 0) as [->|]; [|destruct b].
Qed.

(** X13.  In a well-formed world [print_page_free_map] returns without
    changing anything.  Its text is the header line followed by four
    lines of sixteen characters: character [c] of line [r] stands for
    page [16 * r + c] and is a dot when the free-map byte of that page
    is 0 and a hash otherwise.  The text is 90 characters long. *)
Theorem print_page_free_map_rows s :
  wf s ->
  exists text,
    print_page_free_map s = Ok (text, s) /\
    text = free_map_header ++
           concat (map (fun r => map (glyph s) (seqZ (16 * r) 16) ++ [newline])
                       (seqZ 0 4)) /\
    length text = 90%nat.
Proof.
  intros Hwf. eexists. split_and!.
  - unfold print_page_free_map.
    rewrite (bind_Ok _ _ _ _ _
               (print_page_free_map_loop_spec s Hwf 64 0 ltac:(lia)
                  ltac:(unfold MEM_SIZE; lia))).
    done.
  - cbv -[glyph]. reflexivity.
  - cbv -[glyph]. reflexivity.
Qed.

Lemma print_page_free_map_rows_witness :
  exists text,
    print_page_free_map fresh = Ok (text, fresh) /\
    text = free_map_header ++
           concat (map (fun r => map (glyph fresh) (seqZ (16 * r) 16) ++ [newline])
                       (seqZ 0 4)) /\
    length text = 90%nat.
Proof. exact (print_page_free_map_rows fresh wf_fresh). Defined.

Lemma concat_map_filter {A B} (P : A -> Prop) `{!forall x, Decision (P x)}
    (f g : A -> list B) (l : list A) :
  (forall x, x ∈ l -> P x -> f x = g x) ->
  (forall x, x ∈ l -> ~ P x -> f x = []) ->
  concat (map f l) = concat (map g (filter P l)).
Proof.
  induction l as [|x l IH]; intros Hyes Hno; [done|].
  cbn [map concat]. rewrite filter_cons. rewrite IH.
  - destruct (decide (P x)) as [HP|HP].
    + cbn [map concat]. by rewrite (Hyes x (list_elem_of_here _ _) HP).
    + by rewrite (Hno x (list_elem_of_here _ _) HP).
  - intros y Hy. apply Hyes. by apply list_elem_of_further.
  - intros y Hy. apply Hno. by apply list_elem_of_further.
Qed.

Lemma print_page_table_loop_spec s pt :
  forall k i,
    (forall j, i <= j < i + Z.of_nat k -> is_Some (pte s pt j)) ->
    print_page_table_loop k pt i s =
    Ok (concat (map (fun j => page_table_line j (entry s pt j))
                    (filter (mapped s pt) (seqZ i (Z.of_nat k)))), s).
Proof.
  induction k as [|k IH]; intros i Hread; [done|].
  rewrite seqZ_succ. cbn [print_page_table_loop].
  destruct (Hread i) as [e He]; [lia|]. unfold pte in He.
  rewrite (bind_Ok _ _ _ _ _ (load_byte_Ok _ _ _ He)).
  rewrite (bind_Ok _ _ _ _ _ (IH (i + 1) ltac:(intros j Hj; apply Hread; lia))).
  unfold ret. destruct (Z.eqb_spec e 0) as [->|Hnz]; cbn [negb].
  - rewrite filter_cons_False
      by (unfold mapped, pte; rewrite He; intros H; by apply H).
    done.
  - rewrite filter_cons_True by (unfold mapped, pte; rewrite He; congruence).
    cbn [map concat]. unfold entry, pte. by rewrite He.
Qed.

(** X14.  When the pointer of the process names one of the pages,
    [print_page_table] returns without changing anything.  Its text is
    the header line followed by one line for every entry among the
    indices [0..PAGE_COUNT-1] that is not 0, in ascending order of the
    index; entries at the indices from [PAGE_COUNT] to 255 are not
    shown.  With a pointer beyond the last page it reads outside the
    array. *)
Theorem print_page_table_lists s p pt :
  wf s -> dir_entry s p = Some pt ->
  (pt < PAGE_COUNT ->
   print_page_table p s =
   Ok (page_table_header p ++
       concat (map (fun i => page_table_line i (entry s pt i))
                   (filter (mapped s pt) (seqZ 0 PAGE_COUNT))), s)) /\
  (PAGE_COUNT <= pt -> print_page_table p s = OutOfBounds).
Proof.
  intros Hwf Hdir. pose proof Hdir as Hbyte. unfold dir_entry in Hbyte.
  apply (wf_byte _ _ _ Hwf) in Hbyte.
  assert (Htable : get_page_table p s = Ok (pt, s))
    by (by rewrite get_page_table_dir_entry, Hdir).
  unfold print_page_table. rewrite (bind_Ok _ _ _ _ _ Htable).
  unfold PAGE_COUNT. split.
  - intros Hlt.
    rewrite (bind_Ok _ _ _ _ _ (print_page_table_loop_spec s pt 64 0
               ltac:(intros j Hj; unfold pte;
                     rewrite get_address_add by lia;
                     apply (wf_rd s _ Hwf); unfold MEM_SIZE; lia))).
    done.
  - intros Hge. change (Z.to_nat 64) with (S 63). cbn [print_page_table_loop].
    unfold bind, load_byte.
    destruct (rd (mem s) (get_address pt 0)) as [b|] eqn:Hb; [|done].
    apply (wf_bounds _ _ _ Hwf) in Hb. rewrite get_address_add in Hb by lia.
    unfold MEM_SIZE in Hb. lia.
Qed.

Lemma print_page_table_lists_witness :
  let s := world_after [Np 0 2] in
  print_page_table 0 s =
  Ok (page_table_header 0 ++
      concat (map (fun i => page_table_line i (entry s 1 i))
                  (filter (mapped s 1) (seqZ 0 PAGE_COUNT))), s).
Proof.
  intros s.
  assert (Hwf : wf s) by (apply wf_world_after; vm_compute; reflexivity).
  assert (Hdir : dir_entry s 0 = Some 1) by (vm_compute; reflexivity).
  apply (proj1 (print_page_table_lists s 0 1 Hwf Hdir)). unfold PAGE_COUNT. lia.
Defined.

Lemma filter_seqZ_prefix (P : Z -> Prop) `{!forall x, Decision (P x)} n m :
  0 <= n <= m ->
  (forall i, 0 <= i < n -> P i) -> (forall i, n <= i < m -> ~ P i) ->
  filter P (seqZ 0 m) = seqZ 0 n.
Proof.
  intros Hn Hyes Hno. replace m with (n + (m - n)) by lia.
  rewrite seqZ_app, filter_app by lia. rewrite Z.add_0_l.
  assert (Hall : forall l : list Z, (forall i, i ∈ l -> P i) -> filter P l = l).
  { induction l as [|x l IH]; intros Hl; [done|].
    rewrite filter_cons_True by (apply Hl; left).
    f_equal. apply IH. intros i Hi. apply Hl. by right. }
  assert (Hnone : forall l : list Z, (forall i, i ∈ l -> ~ P i) -> filter P l = []).
  { induction l as [|x l IH]; intros Hl; [done|].
    rewrite filter_cons_False by (apply Hl; left).
    apply IH. intros i Hi. apply Hl. by right. }
  rewrite Hall, Hnone, app_nil_r; [done| |].
  - intros i Hi%elem_of_seqZ. apply Hno. lia.
  - intros i Hi%elem_of_seqZ. apply Hyes. lia.
Qed.

(** X15.  After a [new_process] with page count [n] that printed
    nothing, whose page table is one of the pages and reads 0 at the
    indices from [n] to [PAGE_COUNT-1], [print_page_table] shows the
    header and exactly one line for each index below [n], in order. *)
Theorem print_page_table_after_new_process s p n s1 pt :
  wf s -> 0 <= p < MAX_PROC ->
  new_process p n s = Ok (tt, s1) -> out s1 = out s ->
  dir_entry s1 p = Some pt -> pt < PAGE_COUNT ->
  (forall i, 0 <= i < PAGE_COUNT -> n <= i -> pte s1 pt i = Some 0) ->
  print_page_table p s1 =
  Ok (page_table_header p ++
      concat (map (fun i => page_table_line i (entry s1 pt i))
                  (seqZ 0 (Z.max 0 n))), s1).
Proof.
  intros Hwf Hp Hrun Hquiet Hdir Hpt Hclean.
  destruct (new_process_quiet s p n s1 Hwf Hp Hrun Hquiet)
    as (pt' & _ & _ & Hdir' & _ & Hbound & Hwf1 & _ & _ & Hent).
  assert (pt' = pt) as -> by (unfold dir_entry in Hdir; congruence).
  pose proof (wf_byte _ _ _ Hwf1 Hdir') as Hbyte.
  assert (Htable : get_page_table p s1 = Ok (pt, s1))
    by (by rewrite get_page_table_dir_entry, Hdir).
  unfold print_page_table. rewrite (bind_Ok _ _ _ _ _ Htable).
  rewrite (bind_Ok _ _ _ _ _ (print_page_table_loop_spec s1 pt (Z.to_nat PAGE_COUNT) 0
             ltac:(intros j Hj; unfold pte, PAGE_COUNT in *;
                   rewrite get_address_add by lia;
                   apply (wf_rd s1 _ Hwf1); unfold MEM_SIZE; lia))).
  unfold ret. rewrite Z2Nat.id by (unfold PAGE_COUNT; lia).
  rewrite (filter_seqZ_prefix (mapped s1 pt) (Z.max 0 n) PAGE_COUNT); [done| | |].
  - lia.
  - intros i Hi. destruct (Hent i) as (e & He & Hrange & _); [lia|].
    unfold mapped, pte. rewrite He. intros [= ?]. lia.
  - intros i Hi Hmapped. apply Hmapped, Hclean; lia.
Qed.

Lemma print_page_table_after_new_process_witness :
  let s1 := world_after [Np 3 2] in
  print_page_table 3 s1 =
  Ok (page_table_header 3 ++
      concat (map (fun i => page_table_line i (entry s1 1 i)) (seqZ 0 (Z.max 0 2))),
      s1).
Proof.
  intros s1.
  apply (print_page_table_after_new_process fresh 3 2 s1 1 wf_fresh).
  - unfold MAX_PROC, PAGE_SIZE, PTP_OFFSET. lia.
  - vm_compute. reflexivity.
  - vm_compute. reflexivity.
  - vm_compute. reflexivity.
  - unfold PAGE_COUNT. lia.
  - unfold PAGE_COUNT. intros i Hi Hn.
    apply (clean_from_spec s1 1 2); [vm_compute; reflexivity|unfold PAGE_SIZE; lia|exact Hn].
Defined.

(** X16.  A store does not change what a load at another physical
    address prints.  Let the store go through an entry that names one
    of the pages [1..PAGE_COUNT-1] and is not the page table of the
    loading process, and let the load go through an entry below
    [PAGE_COUNT]; when the two entries or the two offsets differ, the
    load prints, after the store, the byte that was there before. *)
Theorem store_then_load_elsewhere s p va v q va' ptp ptq e e' :
  wf s -> 0 <= q < MAX_PROC -> 0 <= va' < 65536 ->
  dir_entry s p = Some ptp -> pte s ptp (Z.shiftr va PAGE_SHIFT) = Some e ->
  dir_entry s q = Some ptq -> pte s ptq (Z.shiftr va' PAGE_SHIFT) = Some e' ->
  1 <= e < PAGE_COUNT -> e <> ptq -> e' < PAGE_COUNT ->
  e <> e' \/ va mod PAGE_SIZE <> va' mod PAGE_SIZE ->
  exists s1 b,
    store_value p va v s = Ok (tt, s1) /\
    rd (mem s) (e' * PAGE_SIZE + va' mod PAGE_SIZE) = Some b /\
    load_value q va' s1 =
    Ok (tt, World (mem s1)
                  (out s1 ++ [Load_line q va' (e' * PAGE_SIZE + va' mod PAGE_SIZE) b])).
Proof.
  intros Hwf Hq Hva' Hptp He Hptq He' Hrange Hne Hrange' Hdiff.
  unfold MAX_PROC, PAGE_SIZE, PTP_OFFSET, PAGE_COUNT, dir_entry, pte in *.
  pose proof (wf_byte _ _ _ Hwf He') as Hbyte'.
  pose proof (wf_byte _ _ _ Hwf Hptq) as Hbyteq.
  pose proof (shiftr_8_bounds va' Hva') as Hvp'.
  pose proof (Z.mod_pos_bound va 256 ltac:(lia)) as Hoff.
  pose proof (Z.mod_pos_bound va' 256 ltac:(lia)) as Hoff'.
  pose proof (get_physical_addr_Ok p va s ptp e Hptp He) as Htr.
  rewrite get_address_byte in Htr by lia. unfold PAGE_SIZE in Htr.
  set (a := e * 256 + va mod 256) in *.
  set (a' := e' * 256 + va' mod 256).
  destruct (wf_rd s a Hwf) as [old Hold]; [unfold MEM_SIZE, a; lia|].
  destruct (wf_rd s a' Hwf) as [b Hb]; [unfold MEM_SIZE, a'; lia|].
  set (s1 := World (wr (mem s) a (v mod 256)) (out s ++ [Store_line p va a v])).
  assert (Hs1 : forall x, x <> a -> rd (mem s1) x = rd (mem s) x).
  { intros x Hx. apply rd_wr_ne; [unfold a; lia|done]. }
  exists s1, b. split_and!; [|done|].
  - unfold store_value. rewrite (bind_Ok _ _ _ _ _ Htr).
    by rewrite (bind_Ok _ _ _ _ _ (store_byte_Ok _ v _ _ Hold)).
  - assert (Htr' : get_physical_addr q va' s1 = Ok (a', s1)).
    { unfold a'. change 256 with PAGE_SIZE. rewrite <- get_address_byte by lia.
      apply (get_physical_addr_Ok q va' s1 ptq e').
      - rewrite Hs1; [done|]. unfold PTP_OFFSET, a. lia.
      - rewrite Hs1; [done|]. rewrite get_address_add by done. unfold a. lia. }
    assert (Hb1 : rd (mem s1) a' = Some b).
    { rewrite Hs1; [done|]. unfold a, a'. lia. }
    unfold load_value. rewrite (bind_Ok _ _ _ _ _ Htr').
    by rewrite (bind_Ok _ _ _ _ _ (load_byte_Ok _ _ _ Hb1)).
Qed.

Lemma store_then_load_elsewhere_witness :
  let s := world_after [Np 0 2; Sb 0 256 7] in
  exists s1 b,
    store_value 0 0 9 s = Ok (tt, s1) /\
    rd (mem s) (3 * PAGE_SIZE + 256 mod PAGE_SIZE) = Some b /\
    load_value 0 256 s1 =
    Ok (tt, World (mem s1)
                  (out s1 ++ [Load_line 0 256 (3 * PAGE_SIZE + 256 mod PAGE_SIZE) b])).
Proof.
  intros s.
  assert (Hwf : wf s) by (apply wf_world_after; vm_compute; reflexivity).
  apply (store_then_load_elsewhere s 0 0 9 0 256 1 1 2 3 Hwf).
  - unfold MAX_PROC, PAGE_SIZE, PTP_OFFSET. lia.
  - lia.
  - vm_compute. reflexivity.
  - vm_compute. reflexivity.
  - vm_compute. reflexivity.
  - vm_compute. reflexivity.
  - unfold PAGE_COUNT. lia.
  - lia.
  - unfold PAGE_COUNT. lia.
  - left. lia.
Defined.

(** * What address translation computes *)

(** C7.  For a 16-bit virtual address [get_physical_addr] reads the
    page-table page [pt] of the process at address [PTP_OFFSET + p],
    reads the entry [e] of that page at index [va / PAGE_SIZE], the
    value of [va >> 8], and returns [e * PAGE_SIZE + va mod PAGE_SIZE]
    without changing the world; this is [get_address] of the entry and
    of [va & 255].  Nothing is checked: when the entry is 0 the result
    is the offset [va mod PAGE_SIZE], an address inside page 0. *)
Theorem get_physical_addr_translates s p va pt e :
  0 <= va < 65536 ->
  rd (mem s) (PTP_OFFSET + p) = Some pt ->
  rd (mem s) (pt * PAGE_SIZE + va / PAGE_SIZE) = Some e ->
  get_physical_addr p va s = Ok (e * PAGE_SIZE + va mod PAGE_SIZE, s) /\
  Z.shiftr va PAGE_SHIFT = va / PAGE_SIZE /\
  Z.land va 255 = va mod PAGE_SIZE /\
  get_address e (Z.land va 255) = e * PAGE_SIZE + va mod PAGE_SIZE /\
  (e = 0 ->
   e * PAGE_SIZE + va mod PAGE_SIZE = va mod PAGE_SIZE /\
   0 <= va mod PAGE_SIZE < PAGE_SIZE).
Proof.
  unfold PAGE_SIZE. intros Hva Hpt He.
  pose proof (shiftr_8_bounds va Hva) as Hvp.
  assert (Hsh : Z.shiftr va PAGE_SHIFT = va / 256).
  { unfold PAGE_SHIFT. by rewrite Z.shiftr_div_pow2 by lia. }
  assert (Hland : Z.land va 255 = va mod 256).
  { change 255 with (Z.ones 8). by rewrite Z.land_ones by lia. }
  assert (Hga : get_address e (Z.land va 255) = e * 256 + va mod 256).
  { rewrite get_address_add by apply land_255_bounds. by rewrite Hland. }
  split_and!; [|done|done|done|].
  - rewrite <- Hga. apply (get_physical_addr_Ok p va s pt e Hpt).
    rewrite get_address_add by done. by rewrite Hsh.
  - intros ->. split; [lia|]. apply Z.mod_pos_bound. lia.
Qed.

Lemma get_physical_addr_translates_witness :
  let s := world_after [Np 0 2] in
  get_physical_addr 0 300 s = Ok (3 * PAGE_SIZE + 300 mod PAGE_SIZE, s) /\
  3 * PAGE_SIZE + 300 mod PAGE_SIZE = 812.
Proof.
  intros s. split; [|reflexivity].
  apply (get_physical_addr_translates s 0 300 1 3); [lia| |];
    vm_compute; reflexivity.
Defined.
